(** * Veloce API client: the request core of [veloce/client.py]

    A shallow embedding of [VeloceClient]: session lifecycle
    ([_ensure_session], [close]), header construction ([_get_headers]),
    the request/retry/error-mapping loop ([_request]) and [health_check].

    The coroutine bodies are embedded in a state-and-exception monad.  The
    state holds the client object ([self]) and the outside world: the remote
    server, seen as an oracle answering the n-th request, and a
    chronological trace of the effects performed (sessions opened and
    closed, requests sent, backoff sleeps).  Log emission is diagnostic only
    and is not part of the trace. *)

From Stdlib Require Import ZArith List String Ascii Bool Lia.
From Stdlib Require Import DecimalString SpecFloat.
Import ListNotations.

Open Scope string_scope.
Open Scope Z_scope.
Open Scope list_scope.

Local Set Warnings "-register-all".

(** ** Python values decoded from JSON *)

(** What [resp.json()] may return: any JSON document, not only an object.
    JSON objects become [dict]s (here association lists), arrays become
    lists, numbers become [int] or [float]. *)
Inductive json : Type :=
| JNull
| JBool (b : bool)
| JInt (z : Z)
| JFloat (f : spec_float)
| JStr (s : string)
| JArr (l : list json)
| JObj (d : list (string * json)).

Definition dict := list (string * json).

Fixpoint dict_lookup (d : dict) (k : string) : option json :=
  match d with
  | [] => None
  | (k', v) :: rest => if String.eqb k' k then Some v else dict_lookup rest k
  end.

(** [type(v).__name__] *)
Definition type_name (v : json) : string :=
  match v with
  | JNull => "NoneType"
  | JBool _ => "bool"
  | JInt _ => "int"
  | JFloat _ => "float"
  | JStr _ => "str"
  | JArr _ => "list"
  | JObj _ => "dict"
  end.

(** [str(n)] for a Python [int] *)
Definition str_int (z : Z) : string := NilZero.string_of_int (Z.to_int z).

(** ** Exceptions *)

(** Modelled from the spec: [veloce/exceptions.py] is not among the sources.
    Section 7 of the specification gives one generic kind, the base of the
    taxonomy, and five specific kinds; the names are those imported by
    [client.py].  Each specific class derives directly from
    [VeloceAPIError]; an error carries a message, an optional status code
    and an optional response body. *)
Inductive veloce_class : Type :=
| VeloceAPIError
| VeloceAuthError
| VeloceNotFoundError
| VeloceValidationError
| VeloceConflictError
| VeloceServerError.

(** Exceptions of other origin that the code distinguishes.  [ClientError]
    stands for [aiohttp.ClientError] and its subclasses other than
    [aiohttp.ContentTypeError]; [TimeoutError] is [asyncio.TimeoutError];
    [OtherException] is any other subclass of [Exception].  Signals that
    derive from [BaseException] only (task cancellation, keyboard interrupt)
    are outside the embedding. *)
Inductive foreign_class : Type :=
| ClientError
| ContentTypeError
| TimeoutError
| AttributeError
| OtherException.

(** A foreign exception is represented by its class and by [str(e)]. *)
Inductive exn : Type :=
| Veloce (c : veloce_class) (message : json)
         (status_code : option Z) (response : option json)
| Foreign (c : foreign_class) (text : string).

Definition veloce_class_eqb (c d : veloce_class) : bool :=
  match c, d with
  | VeloceAPIError, VeloceAPIError
  | VeloceAuthError, VeloceAuthError
  | VeloceNotFoundError, VeloceNotFoundError
  | VeloceValidationError, VeloceValidationError
  | VeloceConflictError, VeloceConflictError
  | VeloceServerError, VeloceServerError => true
  | _, _ => false
  end.

(** [isinstance(e, C)] for a Veloce class [C]: every Veloce error is an
    instance of the base class. *)
Definition isinstance (e : exn) (c : veloce_class) : bool :=
  match e with
  | Veloce c' _ _ _ => veloce_class_eqb c' c || veloce_class_eqb c VeloceAPIError
  | Foreign _ _ => false
  end.

(** [isinstance(e, aiohttp.ClientError)] *)
Definition is_client_error (e : exn) : bool :=
  match e with
  | Foreign ClientError _ | Foreign ContentTypeError _ => true
  | _ => false
  end.

(** [isinstance(e, aiohttp.ContentTypeError)] *)
Definition is_content_type_error (e : exn) : bool :=
  match e with
  | Foreign ContentTypeError _ => true
  | _ => false
  end.

(** [isinstance(e, asyncio.TimeoutError)] *)
Definition is_timeout_error (e : exn) : bool :=
  match e with
  | Foreign TimeoutError _ => true
  | _ => false
  end.

(** ** The client object and the outside world *)

Record Session : Type := mkSession {
  sid : nat;                 (* identity of the session object *)
  closed : bool;             (* [session.closed] *)
  session_timeout : Z        (* the [timeout=] it was created with *)
}.

Record Client : Type := mkClient {
  base_url : string;
  api_key : string;
  timeout : Z;               (* [aiohttp.ClientTimeout(total=timeout)] *)
  max_retries : Z;
  _session : option Session;
  _owns_session : bool
}.

Definition headers_t := list (string * string).

(** The arguments of one [session.request(...)] call. *)
Record Request : Type := mkRequest {
  req_method : string;
  req_url : string;
  req_json : option json;
  req_params : option json;
  req_headers : headers_t
}.

(** What [await resp.json()] does on a received response. *)
Inductive decoding : Type :=
| Decoded (v : json)
| DecodeRaises (c : foreign_class) (text : string).

Record Response : Type := mkResponse {
  status : Z;
  payload : decoding
}.

(** What [session.request(...)] does: it yields a response, or the
    transport raises. *)
Inductive Outcome : Type :=
| Resp (r : Response)
| Fault (c : foreign_class) (text : string).

Inductive Event : Type :=
| EvSessionOpen (s : nat) (total_timeout : Z)
| EvSessionClose (s : nat)
| EvRequest (s : nat) (r : Request)
| EvSleep (delay : Z).

Record World : Type := mkWorld {
  server : nat -> Request -> Outcome;  (* answer to the n-th request sent *)
  sent : nat;                          (* requests sent so far *)
  next_sid : nat;                      (* sessions created so far *)
  trace : list Event                   (* effects so far, oldest first *)
}.

Record State : Type := mkState {
  self : Client;
  world : World
}.

(** ** The monad of coroutine bodies *)

Inductive result (A : Type) : Type :=
| Ret (a : A)
| Raise (e : exn).
Arguments Ret {A} a.
Arguments Raise {A} e.

(** A computation ends with a value or with a raised exception; either way
    it leaves a state, since what was done before a [raise] stays done. *)
Definition M (A : Type) : Type := State -> result A * State.

Definition ret {A} (a : A) : M A := fun st => (Ret a, st).

Definition raise {A} (e : exn) : M A := fun st => (Raise e, st).

Definition bind {A B} (m : M A) (k : A -> M B) : M B :=
  fun st =>
    match m st with
    | (Ret a, st') => k a st'
    | (Raise e, st') => (Raise e, st')
    end.

(** [try: m  except Exception as e: h e] *)
Definition try_except {A} (m : M A) (h : exn -> M A) : M A :=
  fun st =>
    match m st with
    | (Ret a, st') => (Ret a, st')
    | (Raise e, st') => h e st'
    end.

Notation "x <- m ;; k" := (bind m (fun x => k))
  (at level 61, m at next level, right associativity).
Notation "m ;;; k" := (bind m (fun _ => k))
  (at level 61, right associativity).

Definition get_self : M Client := fun st => (Ret (self st), st).

Definition set_self (c : Client) : M unit :=
  fun st => (Ret tt, mkState c (world st)).

Definition emit (ev : Event) : M unit :=
  fun st =>
    let w := world st in
    (Ret tt, mkState (self st)
               (mkWorld (server w) (sent w) (next_sid w) (trace w ++ [ev]))).

(** [aiohttp.ClientSession(timeout=t)]: a new, open session object. *)
Definition ClientSession (t : Z) : M Session :=
  fun st =>
    let w := world st in
    let s := mkSession (next_sid w) false t in
    (Ret s, mkState (self st)
              (mkWorld (server w) (sent w) (S (next_sid w))
                       (trace w ++ [EvSessionOpen (next_sid w) t]))).

(** [await session.close()] *)
Definition session_close (s : Session) : M unit := emit (EvSessionClose (sid s)).

(** [async with session.request(...) as resp]: the request goes out and the
    server's answer to it is received. *)
Definition session_request (s : Session) (r : Request) : M Response :=
  fun st =>
    let w := world st in
    let st' := mkState (self st)
                 (mkWorld (server w) (S (sent w)) (next_sid w)
                          (trace w ++ [EvRequest (sid s) r])) in
    match server w (sent w) r with
    | Resp resp => (Ret resp, st')
    | Fault c text => (Raise (Foreign c text), st')
    end.

(** [await resp.json()] *)
Definition resp_json (resp : Response) : M json :=
  match payload resp with
  | Decoded v => ret v
  | DecodeRaises c text => raise (Foreign c text)
  end.

(** [await asyncio.sleep(delay)] *)
Definition sleep (delay : Z) : M unit := emit (EvSleep delay).

(** [v.get(key, default)]: only a [dict] has the method. *)
Definition py_get (v : json) (key : string) (default : json) : M json :=
  match v with
  | JObj d =>
      match dict_lookup d key with
      | Some x => ret x
      | None => ret default
      end
  | _ => raise (Foreign AttributeError
                  ("'" ++ type_name v ++ "' object has no attribute 'get'"))
  end.

(** [range(n)] *)
Definition range (n : Z) : list Z := map Z.of_nat (seq 0 (Z.to_nat n)).

(** [s.rstrip("/")] *)
Fixpoint rstrip_slash (s : string) : string :=
  match s with
  | EmptyString => EmptyString
  | String a rest =>
      match rstrip_slash rest with
      | EmptyString => if Ascii.eqb a "/"%char then EmptyString else String a EmptyString
      | rest' => String a rest'
      end
  end.

(** ** [VeloceClient] *)

(** [VeloceClient.__init__] *)
Definition VeloceClient (base_url api_key : string) (timeout max_retries : Z)
  : Client :=
  mkClient (rstrip_slash base_url) api_key timeout max_retries None true.

Definition set_session (c : Client) (s : option Session) : Client :=
  mkClient (base_url c) (api_key c) (timeout c) (max_retries c) s
           (_owns_session c).

Definition set_owns_session (c : Client) (b : bool) : Client :=
  mkClient (base_url c) (api_key c) (timeout c) (max_retries c) (_session c) b.

(** [VeloceClient._ensure_session] *)
Definition _ensure_session : M Session :=
  c <- get_self ;;
  match _session c with
  | Some s =>
      if closed s then
        s' <- ClientSession (timeout c) ;;
        set_self (set_owns_session (set_session c (Some s')) true) ;;;
        ret s'
      else ret s
  | None =>
      s' <- ClientSession (timeout c) ;;
      set_self (set_owns_session (set_session c (Some s')) true) ;;;
      ret s'
  end.

(** [VeloceClient.close] *)
Definition close : M unit :=
  c <- get_self ;;
  match _session c with
  | Some s =>
      if negb (closed s) && _owns_session c then
        session_close s ;;;
        set_self (set_session c None)
      else ret tt
  | None => ret tt
  end.

(** [VeloceClient.__aenter__]; the client itself is the state. *)
Definition __aenter__ : M unit := _ensure_session ;;; ret tt.

(** [VeloceClient.__aexit__] *)
Definition __aexit__ : M unit := close.

(** [VeloceClient._get_headers] *)
Definition _get_headers (c : Client) : headers_t :=
  [ ("X-API-Key", api_key c); ("Content-Type", "application/json") ].

(** ** The request loop *)

(** How one iteration of the [for] loop ends when it does not raise:
    [continue], with the value of [last_exception] it leaves behind, or
    [return]. *)
Inductive flow : Type :=
| Continue (last_exception : option exn)
| Return (value : Z * json).

Section Request.

(** [str(e)] of a Veloce error is fixed by [veloce/exceptions.py], which is
    not among the sources: it is a parameter of the development. *)
Variable str_veloce : veloce_class -> json -> option Z -> option json -> string.

(** [str(e)], as interpolated by an f-string *)
Definition str_exn (e : exn) : string :=
  match e with
  | Veloce c m sc r => str_veloce c m sc r
  | Foreign _ text => text
  end.

(** The body of the [try] block of [_request], lines 190-255. *)
Definition attempt_try (session : Session) (r : Request)
    (attempt retries : Z) : M flow :=
  resp <- session_request session r ;;
  response_data <-
    try_except (resp_json resp)
      (fun e =>
         if is_content_type_error e then ret (JObj [])
         else (* except Exception *) ret (JObj [])) ;;
  if status resp =? 401 then
    raise (Veloce VeloceAuthError (JStr "Authentication failed. Check API key.")
                  (Some 401) (Some response_data))
  else if status resp =? 403 then
    raise (Veloce VeloceAuthError (JStr "Permission denied")
                  (Some 403) (Some response_data))
  else if status resp =? 404 then
    raise (Veloce VeloceNotFoundError (JStr "Resource not found")
                  (Some 404) (Some response_data))
  else if status resp =? 409 then
    raise (Veloce VeloceConflictError (JStr "Resource already exists")
                  (Some 409) (Some response_data))
  else if (status resp =? 400) || (status resp =? 422) then
    detail <- py_get response_data "detail" (JStr "Validation error") ;;
    raise (Veloce VeloceValidationError detail
                  (Some (status resp)) (Some response_data))
  else if 500 <=? status resp then
    let error := Veloce VeloceServerError (JStr "Server error")
                        (Some (status resp)) (Some response_data) in
    if attempt <? retries - 1 then
      (* last_exception = error *)
      let delay := Z.min (2 ^ attempt) 60 in
      sleep delay ;;;
      ret (Continue (Some error))
    else raise error
  else ret (Return (status resp, response_data)).

(** The [except] clauses of [_request], lines 257-276, in order. *)
Definition attempt_except (attempt retries : Z) (e : exn) : M flow :=
  if isinstance e VeloceAuthError || isinstance e VeloceNotFoundError
     || isinstance e VeloceConflictError || isinstance e VeloceValidationError
  then raise e
  else if isinstance e VeloceServerError then raise e
  else if is_client_error e || is_timeout_error e then
    (* last_exception = e *)
    if attempt <? retries - 1 then
      let delay := Z.min (2 ^ attempt) 60 in
      sleep delay ;;;
      ret (Continue (Some e))
    else raise (Veloce VeloceAPIError
                       (JStr ("HTTP request failed: " ++ str_exn e)) None None)
  else (* except Exception *)
    raise (Veloce VeloceAPIError
                  (JStr ("Request failed: " ++ str_exn e)) None None).

(** One iteration of the loop: the [try] statement. *)
Definition attempt_step (session : Session) (r : Request)
    (attempt retries : Z) : M flow :=
  try_except (attempt_try session r attempt retries)
             (attempt_except attempt retries).

(** How the [for] statement ends when it does not raise: the loop runs out
    of attempts and control falls through to the code after it, or the
    function returns from inside the loop. *)
Inductive loop_exit : Type :=
| Exhausted (last_exception : option exn)
| Returned (value : Z * json).

(** [for attempt in attempts: ...] *)
Fixpoint for_attempts (session : Session) (r : Request) (retries : Z)
    (attempts : list Z) (last_exception : option exn) : M loop_exit :=
  match attempts with
  | [] => ret (Exhausted last_exception)
  | attempt :: rest =>
      f <- attempt_step session r attempt retries ;;
      match f with
      | Continue last_exception' =>
          for_attempts session r retries rest last_exception'
      | Return value => ret (Returned value)
      end
  end.

(** The code after the loop, lines 278-281. *)
Definition after_loop (retries : Z) (last_exception : option exn)
  : M (Z * json) :=
  match last_exception with
  | Some e =>
      raise (Veloce VeloceAPIError
               (JStr ("Request failed after " ++ str_int retries
                      ++ " attempts: " ++ str_exn e)) None None)
  | None =>
      raise (Veloce VeloceAPIError
               (JStr ("Request failed after " ++ str_int retries ++ " attempts"))
               None None)
  end.

(** [VeloceClient._request] *)
Definition _request (method endpoint : string) (json_data params : option json)
    (retry : bool) : M (Z * json) :=
  c <- get_self ;;
  let url := (base_url c ++ endpoint)%string in
  let headers := _get_headers c in
  session <- _ensure_session ;;
  let last_exception := None in
  let retries := if retry then max_retries c else 1 in
  exit <- for_attempts session (mkRequest method url json_data params headers)
            retries (range retries) last_exception ;;
  match exit with
  | Returned value => ret value
  | Exhausted last_exception =>
      (* Should not reach here, but just in case *)
      after_loop retries last_exception
  end.

(** [VeloceClient.health_check]; [retry] keeps its default, [True]. *)
Definition health_check : M bool :=
  try_except
    (_request "GET" "/admin" None None true ;;; ret true)
    (fun e =>
       if isinstance e VeloceAuthError then ret true
       else if isinstance e VeloceAPIError then ret false
       else (* except Exception *) ret false).


(** * Vocabulary of the statements *)

(** The body [_request] works with once [resp.json()] has run. *)
Definition body_of (d : decoding) : json :=
  match d with
  | Decoded v => v
  | DecodeRaises _ _ => JObj []
  end.

(** The error built for a response of status 500 or more. *)
Definition server_error (resp : Response) : exn :=
  Veloce VeloceServerError (JStr "Server error")
         (Some (status resp)) (Some (body_of (payload resp))).

(** Connectivity and timeout faults: [aiohttp.ClientError] (with its
    subclasses) and [asyncio.TimeoutError]. *)
Definition is_transport_fault (c : foreign_class) : bool :=
  match c with
  | ClientError | ContentTypeError | TimeoutError => true
  | AttributeError | OtherException => false
  end.

(** A transient failure: a response of status 500 or more, or a transport
    fault. *)
Definition transient (o : Outcome) : bool :=
  match o with
  | Resp resp => 500 <=? status resp
  | Fault c _ => is_transport_fault c
  end.

(** What a transient failure leaves in [last_exception] when retried. *)
Definition recorded (o : Outcome) : exn :=
  match o with
  | Resp resp => server_error resp
  | Fault c text => Foreign c text
  end.

(** What a transient failure raises when no attempt remains. *)
Definition exhausted (o : Outcome) : exn :=
  match o with
  | Resp resp => server_error resp
  | Fault _ text =>
      Veloce VeloceAPIError (JStr ("HTTP request failed: " ++ text)) None None
  end.

(** The backoff delay slept after attempt [i]. *)
Definition backoff (i : Z) : Z := Z.min (2 ^ i) 60.

(** The state once [n] more requests have gone out and [evs] has been
    appended to the trace. *)
Definition advance (st : State) (n : nat) (evs : list Event) : State :=
  let w := world st in
  mkState (self st)
          (mkWorld (server w) (n + sent w)%nat (next_sid w) (trace w ++ evs)).

(** The events of [n] retried attempts starting with attempt [a]: each is a
    request followed by its backoff sleep. *)
Fixpoint retried (s : nat) (r : Request) (a n : nat) : list Event :=
  match n with
  | O => []
  | S n' => EvRequest s r :: EvSleep (backoff (Z.of_nat a)) :: retried s r (S a) n'
  end.

(** The answer of the server to the [i]-th request sent from state [st]
    on. *)
Definition answer (st : State) (i : nat) (r : Request) : Outcome :=
  server (world st) (sent (world st) + i)%nat r.

(** The session a request issued in state [st] goes through: the stored one
    when it is open, a new one otherwise. *)
Definition live_session (c : Client) : option Session :=
  match _session c with
  | Some s => if closed s then None else Some s
  | None => None
  end.

Definition session_for (st : State) : Session :=
  match live_session (self st) with
  | Some s => s
  | None => mkSession (next_sid (world st)) false (timeout (self st))
  end.

(** The state [_ensure_session] leaves. *)
Definition ensured (st : State) : State :=
  match live_session (self st) with
  | Some _ => st
  | None =>
      let w := world st in
      mkState (set_owns_session
                 (set_session (self st) (Some (session_for st))) true)
              (mkWorld (server w) (sent w) (S (next_sid w))
                 (trace w ++ [EvSessionOpen (next_sid w) (timeout (self st))]))
  end.

(** The request [_request] sends on each attempt. *)
Definition request_of (c : Client) (method endpoint : string)
    (json_data params : option json) : Request :=
  mkRequest method (base_url c ++ endpoint) json_data params (_get_headers c).

(** The number of attempts [_request] is allowed. *)
Definition budget (c : Client) (retry : bool) : Z :=
  if retry then max_retries c else 1.


(** A world in which the server gives the one answer [o]. *)
Definition lone (o : Outcome) : State :=
  mkState (VeloceClient "" "" 0 0) (mkWorld (fun _ _ => o) 0 0 []).

(** What one iteration does when the server answers [o]: how it ends, and
    the events it performs.  It is [attempt_step] itself, run in [lone o]. *)
Definition iteration (s : Session) (r : Request) (a n : Z) (o : Outcome)
  : result flow * list Event :=
  let (res, st') := attempt_step s r a n (lone o) in
  (res, trace (world st')).

(** The loop of [_request], as [_request] runs it from state [st]. *)
Definition loop_of (method endpoint : string) (json_data params : option json)
    (retry : bool) (st : State) : result loop_exit * State :=
  for_attempts (session_for st)
    (request_of (self st) method endpoint json_data params)
    (budget (self st) retry) (range (budget (self st) retry)) None
    (ensured st).

(** What [last_exception] holds after [k] retried attempts. *)
Definition last_recorded (st : State) (r : Request) (k : nat)
    (le : option exn) : option exn :=
  match k with
  | O => le
  | S k' => Some (recorded (answer st k' r))
  end.

(** The events of a run of [k + 1] attempts of which the first [k] are
    retried. *)
Definition attempts_trace (s : nat) (r : Request) (k : nat) : list Event :=
  retried s r 0 k ++ [EvRequest s r].

(** The delays slept, and the requests sent, in a list of events. *)
Fixpoint sleeps (evs : list Event) : list Z :=
  match evs with
  | [] => []
  | EvSleep d :: rest => d :: sleeps rest
  | _ :: rest => sleeps rest
  end.

Fixpoint requests (evs : list Event) : list Request :=
  match evs with
  | [] => []
  | EvRequest _ r :: rest => r :: requests rest
  | _ :: rest => requests rest
  end.

(** How the loop ends on an iteration that does not continue. *)
Definition final (res : result flow) : result loop_exit :=
  match res with
  | Ret (Return value) => Ret (Returned value)
  | Ret (Continue le) => Ret (Exhausted le)
  | Raise e => Raise e
  end.

(** The events of a run: requests through the one session, all with the
    same arguments, and sleeps. *)
Definition on_wire (s : nat) (r : Request) (evs : list Event) : Prop :=
  Forall (fun ev => ev = EvRequest s r \/ exists d, ev = EvSleep d) evs.

(** ** Sample inputs *)

(** A server that always gives the same answer, and one that follows a
    script and then keeps giving [o]. *)
Definition always (o : Outcome) : nat -> Request -> Outcome := fun _ _ => o.

Definition scripted (l : list Outcome) (o : Outcome)
  : nat -> Request -> Outcome := fun n _ => nth n l o.

Definition plain (status : Z) (v : json) : Outcome :=
  Resp (mkResponse status (Decoded v)).

(** A newly constructed client in a world where nothing has happened yet. *)
Definition start (srv : nat -> Request -> Outcome) (max_retries : Z) : State :=
  mkState (VeloceClient "https://panel.example/api/" "secret" 30 max_retries)
          (mkWorld srv 0 0 []).

(** A rendering of Veloce errors to instantiate the parameter with: the
    message when it is a string. *)
Definition by_message (c : veloce_class) (m : json) (sc : option Z)
    (r : option json) : string :=
  match m with
  | JStr s => s
  | _ => ""
  end.

(** The [detail] entry of a mapping, or the default message. *)
Definition detail_of (d : dict) : json :=
  match dict_lookup d "detail" with
  | Some x => x
  | None => JStr "Validation error"
  end.

(** The run that ends on attempt [k]: the state it leaves. *)
Definition ended_at (st : State) (r : Request) (k : nat) : State :=
  advance (ensured st) (S k) (attempts_trace (sid (session_for st)) r k).


(** What [health_check] answers on the result of its probe. *)
Definition healthy (probe : result (Z * json)) : bool :=
  match probe with
  | Ret _ => true
  | Raise e => isinstance e VeloceAuthError
  end.

(** The same answer with an undecodable body replaced by the empty
    mapping it is treated as. *)
Definition decoded_or_empty (o : Outcome) : Outcome :=
  match o with
  | Resp resp => Resp (mkResponse (status resp) (Decoded (body_of (payload resp))))
  | Fault c text => Fault c text
  end.

(** The same state, facing the server that sends [{}] wherever the server
    of [st] sends a body that does not decode. *)
Definition lenient (st : State) : State :=
  let w := world st in
  mkState (self st)
          (mkWorld (fun i q => decoded_or_empty (server w i q))
                   (sent w) (next_sid w) (trace w)).

(** The state [close] leaves. *)
Definition after_close (st : State) : State :=
  match _session (self st) with
  | Some s =>
      if negb (closed s) && _owns_session (self st) then
        let w := world st in
        mkState (set_session (self st) None)
                (mkWorld (server w) (sent w) (next_sid w)
                         (trace w ++ [EvSessionClose (sid s)]))
      else st
  | None => st
  end.

(** The states a client gets into through its own methods: it owns its
    session, and a stored session is open. *)
Definition usable (st : State) : Prop :=
  _owns_session (self st) = true /\
  forall s, _session (self st) = Some s -> closed s = false.

(** A panel that is down: every request meets a 503. *)
Definition down : State := start (always (plain 503 (JObj []))) 3.

(** The same panel, for a client constructed with [max_retries=0]. *)
Definition down_no_budget : State := start (always (plain 503 (JObj []))) 0.

(** A healthy panel, for a client constructed with [max_retries=0]. *)
Definition up_no_budget : State := start (always (plain 200 (JObj []))) 0.


(** A panel that answers 400 with a JSON array. *)
Definition rejecting : State := start (always (plain 400 (JArr []))) 3.

(** A panel that answers 503 once and then 422 with a JSON string. *)
Definition recovering : State :=
  start (scripted [plain 503 (JObj [])]
                  (plain 422 (JStr "Unprocessable Entity"))) 3.

(** A proxy that answers 200 with an HTML page. *)
Definition garbled : State :=
  start (always (Resp (mkResponse 200
                         (DecodeRaises ContentTypeError
                            "unexpected mimetype: text/html")))) 3.

(** A panel that refuses the key. *)
Definition forbidden : State :=
  start (always (plain 403 (JObj [("detail", JStr "Not allowed")]))) 3.


(** * Vocabulary of the further properties *)

(** The class of error the status table of [_request] gives a status, if
    any: the chain of tests of lines 210-240. *)
Definition class_of_status (sc : Z) : option veloce_class :=
  if sc =? 401 then Some VeloceAuthError
  else if sc =? 403 then Some VeloceAuthError
  else if sc =? 404 then Some VeloceNotFoundError
  else if sc =? 409 then Some VeloceConflictError
  else if (sc =? 400) || (sc =? 422) then Some VeloceValidationError
  else if 500 <=? sc then Some VeloceServerError
  else None.

(** The sum of a list of delays. *)
Definition total (l : list Z) : Z := fold_right Z.add 0 l.

(** A string of [n] slashes. *)
Fixpoint slashes (n : nat) : string :=
  match n with
  | O => EmptyString
  | S n' => String "/"%char (slashes n')
  end.

(** The configuration of a client: what [__init__] is given. *)
Definition config (c : Client) : string * string * Z * Z :=
  (base_url c, api_key c, timeout c, max_retries c).

(** The same state with another value of [max_retries]. *)
Definition with_max_retries (st : State) (n : Z) : State :=
  let c := self st in
  mkState (mkClient (base_url c) (api_key c) (timeout c) n
                    (_session c) (_owns_session c))
          (world st).

(** The sessions that a trace has opened and not closed, oldest first. *)
Fixpoint open_sessions_from (acc : list nat) (evs : list Event) : list nat :=
  match evs with
  | [] => acc
  | EvSessionOpen s _ :: rest => open_sessions_from (acc ++ [s]) rest
  | EvSessionClose s :: rest =>
      open_sessions_from (remove Nat.eq_dec s acc) rest
  | _ :: rest => open_sessions_from acc rest
  end.

Definition open_sessions (evs : list Event) : list nat :=
  open_sessions_from [] evs.

(** A usable state whose trace has exactly the stored session open. *)
Definition tidy (st : State) : Prop :=
  usable st /\
  open_sessions (trace (world st))
  = match _session (self st) with
    | Some s => [sid s]
    | None => []
    end.

(** The calls a user of the client makes. *)
Inductive call : Type :=
| call_ensure_session
| call_close
| call_request (method endpoint : string) (json_data params : option json)
               (retry : bool)
| call_health_check
| call_aenter
| call_aexit.

(** The state a call leaves, whether it returns or raises. *)
Definition run_call (c : call) (st : State) : State :=
  match c with
  | call_ensure_session => snd (_ensure_session st)
  | call_close => snd (close st)
  | call_request method endpoint json_data params retry =>
      snd (_request method endpoint json_data params retry st)
  | call_health_check => snd (health_check st)
  | call_aenter => snd (__aenter__ st)
  | call_aexit => snd (__aexit__ st)
  end.

Definition run_calls (cs : list call) (st : State) : State :=
  fold_left (fun st c => run_call c st) cs st.

(** [async with client: body].  [__aenter__] runs first; [__aexit__] runs
    when the body is left, by a value or by an exception, and, returning
    [None], lets the exception through. *)
Definition async_with {A : Type} (body : M A) : M A :=
  __aenter__ ;;;
  fun st =>
    match body st with
    | (Ret a, st') => (__aexit__ ;;; ret a) st'
    | (Raise e, st') => (__aexit__ ;;; raise e) st'
    end.

(** ** Further sample inputs *)

(** A healthy panel. *)
Definition up : State := start (always (plain 200 (JObj []))) 3.

(** A panel that throttles: every request meets a 429. *)
Definition throttled : State := start (always (plain 429 (JObj []))) 3.

(** A panel behind a failing link: a timeout, a reset connection, then a
    502 from the proxy. *)
Definition failing_link : State :=
  start (scripted [Fault TimeoutError "timed out";
                   Fault ClientError "Connection reset by peer"]
                  (plain 502 (JStr "Bad Gateway"))) 3.



(** * Properties *)

(** ** Concrete runs *)

(** A 200 response with body [{"a": 1}] is returned as it is, after one
    request and no sleep. *)
Example run_success :
  let st := start (always (plain 200 (JObj [("a", JInt 1)]))) 3 in
  _request "GET" "/users" None None true st =
  (Ret (200, JObj [("a", JInt 1)]),
   ended_at st (request_of (self st) "GET" "/users" None None) 0).
Proof. reflexivity. Qed.

(** Two 503s, then a 200: the third attempt succeeds, after sleeps of 1 and
    2. *)
Example run_recovers :
  let st := start (scripted [plain 503 JNull; plain 503 JNull]
                            (plain 200 (JArr [JStr "node-1"]))) 3 in
  let r := request_of (self st) "GET" "/nodes" None None in
  _request "GET" "/nodes" None None true st =
  (Ret (200, JArr [JStr "node-1"]),
   advance (ensured st) 3
     [EvRequest 0 r; EvSleep 1; EvRequest 0 r; EvSleep 2; EvRequest 0 r]).
Proof. reflexivity. Qed.

(** A 422 whose body has a [detail] entry: the entry, here a list, is the
    message of the validation error. *)
Example run_validation :
  let body := JObj [("detail", JArr [JStr "username: too short"])] in
  let st := start (always (plain 422 body)) 3 in
  fst (_request "POST" "/user" (Some (JObj [("username", JStr "a")])) None
         true st) =
  Raise (Veloce VeloceValidationError (JArr [JStr "username: too short"])
                (Some 422) (Some body)).
Proof. reflexivity. Qed.

(** The base URL loses its trailing slashes, and the URL of a request is the
    base URL followed by the endpoint. *)
Example run_url :
  req_url (request_of (VeloceClient "https://panel.example/api//" "k" 30 3)
             "GET" "/admin" None None)
  = "https://panel.example/api/admin".
Proof. reflexivity. Qed.

(** The backoff doubles from 1 and is capped at 60. *)
Example run_backoff :
  map backoff (range 8) = [1; 2; 4; 8; 16; 32; 60; 60].
Proof. reflexivity. Qed.

(** ** Session and request set-up *)

Lemma ensure_session_run (st : State) :
  _ensure_session st = (Ret (session_for st), ensured st).
Proof.
  unfold _ensure_session, ensured, session_for, live_session, bind, get_self.
  destruct st as [c w]; simpl.
  destruct (_session c) as [s|]; [destruct s as [i [|] t]|]; reflexivity.
Qed.

Lemma request_unfold method endpoint json_data params retry (st : State) :
  _request method endpoint json_data params retry st =
  match loop_of method endpoint json_data params retry st with
  | (Ret (Returned value), st') => (Ret value, st')
  | (Ret (Exhausted le), st') => after_loop (budget (self st) retry) le st'
  | (Raise e, st') => (Raise e, st')
  end.
Proof.
  unfold _request, loop_of, bind at 1, get_self at 1.
  unfold bind at 1. rewrite ensure_session_run.
  unfold bind at 1, request_of, budget.
  destruct (for_attempts _ _ _ _ _ _) as [[[le|value]|e] st']; reflexivity.
Qed.

(** ** One iteration *)

Ltac split_tests :=
  repeat match goal with
    | |- context [if ?b then _ else _] => destruct b
    end.

(** An iteration depends on the state through the server's answer only. *)
Lemma attempt_step_iteration s r a n st :
  attempt_step s r a n st =
  (fst (iteration s r a n (answer st 0 r)),
   advance st 1 (snd (iteration s r a n (answer st 0 r)))).
Proof.
  unfold iteration, attempt_step, try_except, attempt_try, bind,
    session_request, answer, advance, lone.
  cbn [world self server sent trace next_sid]. rewrite Nat.add_0_r.
  destruct (server (world st) (sent (world st)) r) as [resp|c text].
  - unfold resp_json.
    destruct (payload resp) as [v|c text]; cbn;
      split_tests; cbn; rewrite <- ?app_assoc; try reflexivity.
    all: unfold py_get; try (destruct v; cbn; rewrite <- ?app_assoc; try reflexivity).
    all: try (destruct (dict_lookup d "detail"); cbn; reflexivity).
  - destruct c; cbn; split_tests; cbn; rewrite <- ?app_assoc; reflexivity.
Qed.

Ltac low_status :=
  repeat match goal with
    | |- context [?x =? ?y] => destruct (Z.eqb_spec x y); [lia|]
    | |- context [?x <=? ?y] => destruct (Z.leb_spec x y); [try lia|try lia]
    | |- context [?x <? ?y] => destruct (Z.ltb_spec x y); [try lia|try lia]
    end.

(** A transient failure with attempts left: the error is recorded, the
    backoff delay is slept and the loop continues. *)
Lemma iteration_transient_retry s r a n o :
  transient o = true -> a < n - 1 ->
  iteration s r a n o =
  (Ret (Continue (Some (recorded o))),
   [EvRequest (sid s) r; EvSleep (backoff a)]).
Proof.
  intros Ht Ha. unfold iteration, attempt_step, try_except, attempt_try, bind,
    session_request, lone; cbn.
  destruct o as [resp|c text]; cbn in *.
  - apply Z.leb_le in Ht. unfold resp_json.
    destruct (payload resp) as [v|[] text] eqn:E; cbn; low_status; cbn;
      unfold server_error; rewrite E; reflexivity.
  - destruct c; try discriminate; cbn; low_status; reflexivity.
Qed.

(** A transient failure on the last attempt raises. *)
Lemma iteration_transient_last s r a n o :
  transient o = true -> n - 1 <= a ->
  iteration s r a n o = (Raise (exhausted o), [EvRequest (sid s) r]).
Proof.
  intros Ht Ha. unfold iteration, attempt_step, try_except, attempt_try, bind,
    session_request, lone; cbn.
  destruct o as [resp|c text]; cbn in *.
  - apply Z.leb_le in Ht. unfold resp_json.
    destruct (payload resp) as [v|[] text] eqn:E; cbn; low_status; cbn;
      unfold server_error; rewrite E; reflexivity.
  - destruct c; try discriminate; cbn; low_status; reflexivity.
Qed.

(** Any other answer ends the loop at once, whatever the attempt number and
    the budget, with no sleep. *)
Lemma iteration_settled s r a n o :
  transient o = false ->
  iteration s r a n o = iteration s r 0 1 o /\
  snd (iteration s r a n o) = [EvRequest (sid s) r] /\
  forall le, fst (iteration s r a n o) <> Ret (Continue le).
Proof.
  intros Ht. unfold iteration, attempt_step, try_except, attempt_try, bind,
    session_request, lone; cbn.
  destruct o as [resp|c text]; cbn in *.
  - apply Z.leb_gt in Ht. unfold resp_json.
    destruct (payload resp) as [v|[] text] eqn:E; cbn.
    all: destruct (Z.leb_spec 500 (status resp)); [lia|].
    all: split_tests; cbn; try (repeat split; discriminate).
    all: unfold py_get; destruct v; cbn; try (repeat split; discriminate).
    all: destruct (dict_lookup d "detail"); cbn; repeat split; discriminate.
  - destruct c; try discriminate; cbn; repeat split; discriminate.
Qed.

(** ** The loop *)

Lemma advance_advance st n m evs evs' :
  advance (advance st n evs) m evs' = advance st (m + n) (evs ++ evs').
Proof.
  unfold advance; cbn. rewrite Nat.add_assoc, app_assoc. reflexivity.
Qed.

Lemma advance_0_nil st : advance st 0 [] = st.
Proof.
  destruct st as [c [sv k i tr]]; unfold advance; cbn.
  rewrite app_nil_r. reflexivity.
Qed.

Lemma answer_advance st n evs i r :
  answer (advance st n evs) i r = answer st (n + i) r.
Proof.
  unfold answer, advance; cbn. f_equal. lia.
Qed.

Lemma for_attempts_cons s r n a rest le st :
  for_attempts s r n (a :: rest) le st =
  match fst (iteration s r a n (answer st 0 r)) with
  | Ret (Continue le') =>
      for_attempts s r n rest le'
        (advance st 1 (snd (iteration s r a n (answer st 0 r))))
  | Ret (Return value) =>
      (Ret (Returned value),
       advance st 1 (snd (iteration s r a n (answer st 0 r))))
  | Raise e =>
      (Raise e, advance st 1 (snd (iteration s r a n (answer st 0 r))))
  end.
Proof.
  cbn [for_attempts]. unfold bind at 1. rewrite attempt_step_iteration.
  destruct (fst (iteration s r a n (answer st 0 r))) as [[le'|value]|e];
    reflexivity.
Qed.

(** [k] transient failures in a row, none on the last budgeted attempt, are
    all retried. *)
Lemma for_attempts_retried s r n k : forall a rest le st,
  Z.of_nat (a + k) <= n - 1 ->
  (forall i, (i < k)%nat -> transient (answer st i r) = true) ->
  for_attempts s r n (map Z.of_nat (seq a k) ++ rest) le st =
  for_attempts s r n rest (last_recorded st r k le)
    (advance st k (retried (sid s) r a k)).
Proof.
  induction k as [|k IH]; intros a rest le st Hn Ht.
  - cbn. rewrite advance_0_nil. reflexivity.
  - cbn [seq map app]. rewrite for_attempts_cons.
    rewrite iteration_transient_retry by (try apply Ht; lia).
    cbn [fst snd]. rewrite IH.
    + rewrite advance_advance. cbn [retried app].
      replace (k + 1)%nat with (S k) by lia. f_equal.
      destruct k; cbn [last_recorded].
      * reflexivity.
      * rewrite answer_advance. reflexivity.
    + lia.
    + intros i Hi. rewrite answer_advance. apply Ht. lia.
Qed.


Lemma answer_ensured st i r : answer (ensured st) i r = answer st i r.
Proof.
  unfold answer, ensured. destruct (live_session (self st)); reflexivity.
Qed.

Lemma range_split n k :
  Z.of_nat k < n ->
  range n = map Z.of_nat (seq 0 k) ++
            Z.of_nat k :: map Z.of_nat (seq (S k) (Z.to_nat n - S k)).
Proof.
  intros Hk. unfold range.
  replace (Z.to_nat n) with (k + S (Z.to_nat n - S k))%nat at 1 by lia.
  rewrite seq_app, map_app. reflexivity.
Qed.

Lemma range_nonpositive n : n <= 0 -> range n = [].
Proof.
  intros Hn. unfold range. replace (Z.to_nat n) with O by lia. reflexivity.
Qed.

(** The first answer that is not a transient failure, or else the last
    budgeted attempt, is where the loop stops. *)
Lemma stopping_attempt (p : nat -> bool) (m : nat) :
  exists k, (k <= m)%nat /\ (forall i, (i < k)%nat -> p i = true) /\
            (p k = false \/ k = m).
Proof.
  induction m as [|m [k (Hk & Hp & Hs)]].
  - exists O. repeat split; auto. intros i Hi; lia.
  - destruct Hs as [Hs|Hs].
    + exists k. repeat split; auto.
    + subst k. destruct (p m) eqn:E.
      * exists (S m). repeat split; auto.
        intros i Hi. destruct (Nat.eq_dec i m); [subst; auto|apply Hp; lia].
      * exists m. repeat split; auto.
Qed.

(** The run of the loop: [k] retried attempts, then the attempt that ends
    it. *)
Lemma loop_run method endpoint json_data params retry st k :
  let r := request_of (self st) method endpoint json_data params in
  let n := budget (self st) retry in
  let s := session_for st in
  Z.of_nat k < n ->
  (forall i, (i < k)%nat -> transient (answer st i r) = true) ->
  transient (answer st k r) = false \/ Z.of_nat k = n - 1 ->
  loop_of method endpoint json_data params retry st =
  (final (fst (iteration s r (Z.of_nat k) n (answer st k r))),
   advance (ensured st) (S k) (attempts_trace (sid s) r k)) /\
  forall le, fst (iteration s r (Z.of_nat k) n (answer st k r))
             <> Ret (Continue le).
Proof.
  intros r n s Hk Ht Hs. unfold loop_of. fold r n s.
  rewrite (range_split n k Hk).
  rewrite for_attempts_retried;
    [|cbn; lia|intros i Hi; rewrite answer_ensured; auto].
  rewrite for_attempts_cons, answer_advance, answer_ensured, Nat.add_0_r.
  rewrite advance_advance. unfold attempts_trace.
  replace (1 + k)%nat with (S k) by lia.
  assert (Hfin : snd (iteration s r (Z.of_nat k) n (answer st k r))
                 = [EvRequest (sid s) r] /\
                 forall le, fst (iteration s r (Z.of_nat k) n (answer st k r))
                            <> Ret (Continue le)).
  { destruct (transient (answer st k r)) eqn:E.
    - destruct Hs as [Hs|Hs]; [discriminate|].
      rewrite iteration_transient_last by (auto; lia).
      split; [reflexivity|discriminate].
    - destruct (iteration_settled s r (Z.of_nat k) n _ E) as (_ & H1 & H2).
      split; assumption. }
  destruct Hfin as [Hev Hnc]. rewrite Hev. split; [|exact Hnc].
  destruct (fst (iteration s r (Z.of_nat k) n (answer st k r)))
    as [[le|value]|e]; try reflexivity.
  exfalso. apply (Hnc le). reflexivity.
Qed.

(** With no budget the loop body never runs. *)
Lemma loop_no_budget method endpoint json_data params retry st :
  budget (self st) retry <= 0 ->
  loop_of method endpoint json_data params retry st =
  (Ret (Exhausted None), ensured st).
Proof.
  intros Hn. unfold loop_of. rewrite range_nonpositive by assumption.
  reflexivity.
Qed.


Lemma request_no_budget method endpoint json_data params retry st :
  budget (self st) retry <= 0 ->
  _request method endpoint json_data params retry st
  = (Raise (Veloce VeloceAPIError
              (JStr ("Request failed after "
                     ++ str_int (budget (self st) retry) ++ " attempts"))
              None None),
     ensured st).
Proof.
  intros Hn. rewrite request_unfold, loop_no_budget by exact Hn. reflexivity.
Qed.

(** ** Reading a run *)

Lemma sleeps_app evs evs' : sleeps (evs ++ evs') = sleeps evs ++ sleeps evs'.
Proof.
  induction evs as [|[] evs IH]; cbn; rewrite ?IH; reflexivity.
Qed.

Lemma requests_app evs evs' :
  requests (evs ++ evs') = requests evs ++ requests evs'.
Proof.
  induction evs as [|[] evs IH]; cbn; rewrite ?IH; reflexivity.
Qed.

Lemma retried_sleeps s r k : forall a,
  sleeps (retried s r a k) = map (fun i => backoff (Z.of_nat i)) (seq a k).
Proof.
  induction k as [|k IH]; intros a; cbn; [|rewrite IH]; reflexivity.
Qed.

Lemma retried_requests s r k : forall a,
  requests (retried s r a k) = repeat r k.
Proof.
  induction k as [|k IH]; intros a; cbn; [|rewrite IH]; reflexivity.
Qed.

(** A run of [k + 1] attempts sleeps [min(2^i, 60)] after attempt [i], for
    [i] from [0] to [k - 1], and sends [k + 1] requests. *)
Lemma attempts_trace_sleeps s r k :
  sleeps (attempts_trace s r k) = map backoff (range (Z.of_nat k)).
Proof.
  unfold attempts_trace, range. rewrite sleeps_app, retried_sleeps, Nat2Z.id.
  cbn. rewrite app_nil_r, map_map. reflexivity.
Qed.

Lemma attempts_trace_requests s r k :
  requests (attempts_trace s r k) = repeat r (S k).
Proof.
  unfold attempts_trace. rewrite requests_app, retried_requests. cbn.
  induction k; cbn; [|rewrite IHk]; reflexivity.
Qed.

(** ** Retrying *)

(** C2, as amended.  With the retry flag true and [max_retries >= 1], if
    every attempt yields a status of 500 or more then [_request] makes
    exactly [max_retries] attempts, sleeps [min(2^i, 60)] after attempt [i]
    for [i] from [0] to [max_retries - 2], and raises the server error that
    carries the status code and body of the last response.  With the retry
    flag false, [_request] makes exactly one attempt and never sleeps,
    whatever the server answers. *)
Theorem request_retry_budget method endpoint json_data params st :
  let r := request_of (self st) method endpoint json_data params in
  let s := session_for st in
  let n := Z.to_nat (max_retries (self st)) in
  (1 <= max_retries (self st) ->
   (forall i, (i < n)%nat ->
      exists resp, answer st i r = Resp resp /\ 500 <= status resp) ->
   exists resp,
     answer st (n - 1) r = Resp resp /\
     _request method endpoint json_data params true st =
       (Raise (Veloce VeloceServerError (JStr "Server error")
                      (Some (status resp)) (Some (body_of (payload resp)))),
        advance (ensured st) n (attempts_trace (sid s) r (n - 1))) /\
     List.length (requests (attempts_trace (sid s) r (n - 1))) = n /\
     sleeps (attempts_trace (sid s) r (n - 1)) =
       map backoff (range (max_retries (self st) - 1)))
  /\
  (exists res,
     _request method endpoint json_data params false st =
       (res, advance (ensured st) 1 [EvRequest (sid s) r])).
Proof.
  intros r s n. split.
  - intros Hn Hall.
    destruct (Hall (n - 1)%nat) as (resp & Hresp & Hst); [lia|].
    exists resp. split; [exact Hresp|].
    assert (Hrun := loop_run method endpoint json_data params true st (n - 1)).
    cbn zeta in Hrun. fold r s in Hrun. cbn [budget] in Hrun.
    destruct Hrun as [Hrun _]; [lia| |right; lia|].
    { intros i Hi. destruct (Hall i) as (resp' & -> & Hst'); [lia|].
      cbn. apply Z.leb_le. exact Hst'. }
    rewrite request_unfold, Hrun.
    rewrite iteration_transient_last;
      [|rewrite Hresp; cbn; apply Z.leb_le; exact Hst|lia].
    rewrite Hresp. cbn [fst final exhausted].
    replace (S (n - 1)) with n by lia.
    split; [reflexivity|].
    rewrite attempts_trace_requests, repeat_length, attempts_trace_sleeps.
    split; [lia|]. do 2 f_equal. lia.
  - destruct (stopping_attempt (fun i => transient (answer st i r)) 0)
      as (k & Hk & Hp & Hs).
    assert (k = O) by lia. subst k.
    assert (Hrun := loop_run method endpoint json_data params false st 0).
    cbn zeta in Hrun. fold r s in Hrun. cbn [budget] in Hrun.
    destruct Hrun as [Hrun Hnc]; [lia|intros i Hi; lia| |].
    { destruct Hs as [Hs|Hs]; [left; exact Hs|right; reflexivity]. }
    rewrite request_unfold, Hrun. unfold attempts_trace. cbn [retried app].
    destruct (fst (iteration s r (Z.of_nat 0) 1 (answer st 0 r)))
      as [[le|value]|e]; cbn [final].
    + exfalso. apply (Hnc le). reflexivity.
    + eexists. reflexivity.
    + eexists. reflexivity.
Qed.


(** ** The fallback after the loop *)

(** C7, as amended.  Whenever at least one attempt is budgeted (the retry
    flag is false, or [max_retries >= 1]) the loop never falls through: it
    returns or raises from inside its body, so the code after the loop is
    not reached.  Control reaches that code only without budget (retry flag
    true and [max_retries <= 0]): the loop body then never runs, no request
    is sent, and the generic error of the fallback is raised. *)
Theorem fallback_only_without_budget method endpoint json_data params retry st :
  let n := budget (self st) retry in
  (1 <= n ->
   forall le,
     fst (loop_of method endpoint json_data params retry st)
     <> Ret (Exhausted le)) /\
  (n <= 0 ->
   loop_of method endpoint json_data params retry st
     = (Ret (Exhausted None), ensured st) /\
   _request method endpoint json_data params retry st
     = (Raise (Veloce VeloceAPIError
                 (JStr ("Request failed after " ++ str_int n ++ " attempts"))
                 None None),
        ensured st)).
Proof.
  intros n. split.
  - intros Hn le.
    set (r := request_of (self st) method endpoint json_data params).
    destruct (stopping_attempt (fun i => transient (answer st i r))
                               (Z.to_nat n - 1)) as (k & Hk & Hp & Hs).
    destruct (loop_run method endpoint json_data params retry st k)
      as [Hrun Hnc]; fold r n; [lia|exact Hp| |].
    { destruct Hs as [Hs|Hs]; [left; exact Hs|right; lia]. }
    fold r n in Hrun, Hnc. rewrite Hrun. cbn [fst].
    destruct (fst (iteration (session_for st) r (Z.of_nat k) n (answer st k r)))
      as [[le'|value]|e]; cbn [final]; try discriminate.
    exfalso. apply (Hnc le'). reflexivity.
  - intros Hn. split; [apply loop_no_budget|apply request_no_budget]; exact Hn.
Qed.

(** ** Transport faults *)


Lemma iteration_events s r a n o :
  snd (iteration s r a n o) = [EvRequest (sid s) r] \/
  snd (iteration s r a n o) = [EvRequest (sid s) r; EvSleep (backoff a)].
Proof.
  destruct (transient o) eqn:E.
  - destruct (Z.lt_ge_cases a (n - 1)).
    + right. rewrite iteration_transient_retry by assumption. reflexivity.
    + left. rewrite iteration_transient_last by assumption. reflexivity.
  - left. apply (iteration_settled s r a n o E).
Qed.

Lemma for_attempts_events s r n l : forall le st,
  exists evs,
    snd (for_attempts s r n l le st)
      = advance st (List.length (requests evs)) evs /\
    on_wire (sid s) r evs /\
    (l <> [] -> exists tail, evs = EvRequest (sid s) r :: tail).
Proof.
  induction l as [|a l IH]; intros le st.
  - exists []. cbn. rewrite advance_0_nil.
    repeat split; [constructor|congruence].
  - rewrite for_attempts_cons.
    assert (Hev : exists tail,
               snd (iteration s r a n (answer st 0 r))
                 = EvRequest (sid s) r :: tail /\
               requests tail = [] /\ on_wire (sid s) r tail).
    { destruct (iteration_events s r a n (answer st 0 r)) as [->| ->].
      - exists []. repeat split. constructor.
      - exists [EvSleep (backoff a)]. repeat split.
        constructor; [right; eexists; reflexivity|constructor]. }
    destruct Hev as (tail & Hev & Hreq & Hwire). rewrite Hev.
    destruct (fst (iteration s r a n (answer st 0 r))) as [[le'|value]|e].
    + destruct (IH le' (advance st 1 (EvRequest (sid s) r :: tail)))
        as (evs & Hsnd & Hw & _).
      exists ((EvRequest (sid s) r :: tail) ++ evs).
      rewrite Hsnd, advance_advance. repeat split.
      * f_equal. cbn. rewrite requests_app, Hreq. cbn. lia.
      * apply Forall_app. split; [constructor; auto|exact Hw].
      * intros _. eexists. reflexivity.
    + exists (EvRequest (sid s) r :: tail). cbn [snd requests].
      rewrite Hreq. repeat split.
      * constructor; auto.
      * intros _. eexists. reflexivity.
    + exists (EvRequest (sid s) r :: tail). cbn [snd requests].
      rewrite Hreq. repeat split.
      * constructor; auto.
      * intros _. eexists. reflexivity.
Qed.

Lemma request_state method endpoint json_data params retry st :
  snd (_request method endpoint json_data params retry st) =
  snd (loop_of method endpoint json_data params retry st).
Proof.
  rewrite request_unfold.
  destruct (loop_of _ _ _ _ _ _) as [[[[e|]|value]|e] st']; reflexivity.
Qed.

(** ** Status classification *)

(** An answer that is not a transient failure settles the call on the
    attempt that receives it, in a way that depends on the answer alone. *)
Lemma request_settles method endpoint json_data params retry st k :
  let r := request_of (self st) method endpoint json_data params in
  let s := session_for st in
  let n := budget (self st) retry in
  Z.of_nat k < n ->
  (forall i, (i < k)%nat -> transient (answer st i r) = true) ->
  transient (answer st k r) = false ->
  (forall value,
     fst (iteration s r 0 1 (answer st k r)) = Ret (Return value) ->
     _request method endpoint json_data params retry st
       = (Ret value, ended_at st r k)) /\
  (forall e,
     fst (iteration s r 0 1 (answer st k r)) = Raise e ->
     _request method endpoint json_data params retry st
       = (Raise e, ended_at st r k)) /\
  (forall le, fst (iteration s r 0 1 (answer st k r)) <> Ret (Continue le)).
Proof.
  intros r s n Hk Hpre Hans.
  destruct (loop_run method endpoint json_data params retry st k)
    as [Hrun Hnc]; fold r s n; [lia|exact Hpre|left; exact Hans|].
  fold r s n in Hrun, Hnc.
  destruct (iteration_settled s r (Z.of_nat k) n _ Hans) as (Heq & _ & _).
  rewrite Heq in Hnc, Hrun.
  repeat split; [intros value Hv|intros e He|exact Hnc];
    rewrite request_unfold, Hrun; [rewrite Hv|rewrite He]; reflexivity.
Qed.

(** The classification of a response below 500, read off one iteration. *)
Lemma iteration_classification s r resp :
  let b := body_of (payload resp) in
  let res := fst (iteration s r 0 1 (Resp resp)) in
  (status resp = 401 ->
   res = Raise (Veloce VeloceAuthError
                  (JStr "Authentication failed. Check API key.")
                  (Some 401) (Some b))) /\
  (status resp = 403 ->
   res = Raise (Veloce VeloceAuthError (JStr "Permission denied")
                  (Some 403) (Some b))) /\
  (status resp = 404 ->
   res = Raise (Veloce VeloceNotFoundError (JStr "Resource not found")
                  (Some 404) (Some b))) /\
  (status resp = 409 ->
   res = Raise (Veloce VeloceConflictError (JStr "Resource already exists")
                  (Some 409) (Some b))) /\
  (status resp = 400 \/ status resp = 422 ->
   forall d, b = JObj d ->
   res = Raise (Veloce VeloceValidationError (detail_of d)
                  (Some (status resp)) (Some b))) /\
  (status resp = 400 \/ status resp = 422 ->
   (forall d, b <> JObj d) ->
   res = Raise (Veloce VeloceAPIError
                  (JStr ("Request failed: '" ++ type_name b
                         ++ "' object has no attribute 'get'")) None None)) /\
  (status resp < 500 ->
   ~ In (status resp) [401; 403; 404; 409; 400; 422] ->
   res = Ret (Return (status resp, b))).
Proof.
  intros b res. subst b res.
  unfold iteration, attempt_step, try_except, attempt_try, bind,
    session_request, lone, resp_json, detail_of; cbn.
  destruct resp as [st p]; cbn.
  repeat split.
  1-4: intros ->; destruct p as [v|[] text]; reflexivity.
  - intros Hst d Hb.
    destruct p as [v|[] text]; cbn in Hb; subst;
      destruct Hst as [-> | ->]; cbn;
      try (destruct (dict_lookup d "detail"); reflexivity);
      injection Hb as <-; reflexivity.
  - intros Hst Hb.
    destruct p as [v|c text]; cbn in Hb.
    + destruct Hst as [-> | ->]; cbn;
        destruct v; try reflexivity; exfalso; eapply Hb; reflexivity.
    + exfalso. eapply Hb. reflexivity.
  - intros Hlt Hnot. cbn in Hnot.
    destruct p as [v|[] text]; cbn; low_status; try reflexivity;
      exfalso; apply Hnot; auto 10.
Qed.

(** What [_request] does with a response of status below 500, on whichever
    attempt it arrives and whatever the retry flag: the typed errors of the
    classification table, each carrying the status code and the decoded
    body, and success for every other status.  A 400 or 422 response gets
    its validation error when the decoded body is a mapping. *)
Theorem request_classification
    method endpoint json_data params retry st k resp :
  let r := request_of (self st) method endpoint json_data params in
  let b := body_of (payload resp) in
  let run := _request method endpoint json_data params retry st in
  Z.of_nat k < budget (self st) retry ->
  (forall i, (i < k)%nat -> transient (answer st i r) = true) ->
  answer st k r = Resp resp ->
  status resp < 500 ->
  (status resp = 401 ->
   run = (Raise (Veloce VeloceAuthError
                   (JStr "Authentication failed. Check API key.")
                   (Some 401) (Some b)), ended_at st r k)) /\
  (status resp = 403 ->
   run = (Raise (Veloce VeloceAuthError (JStr "Permission denied")
                   (Some 403) (Some b)), ended_at st r k)) /\
  (status resp = 404 ->
   run = (Raise (Veloce VeloceNotFoundError (JStr "Resource not found")
                   (Some 404) (Some b)), ended_at st r k)) /\
  (status resp = 409 ->
   run = (Raise (Veloce VeloceConflictError (JStr "Resource already exists")
                   (Some 409) (Some b)), ended_at st r k)) /\
  (status resp = 400 \/ status resp = 422 ->
   forall d, b = JObj d ->
   run = (Raise (Veloce VeloceValidationError (detail_of d)
                   (Some (status resp)) (Some b)), ended_at st r k)) /\
  (~ In (status resp) [401; 403; 404; 409; 400; 422] ->
   run = (Ret (status resp, b), ended_at st r k)).
Proof.
  intros r b run Hk Hpre Hans Hlow. subst run.
  assert (Hnt : transient (answer st k r) = false).
  { rewrite Hans. cbn. apply Z.leb_gt. exact Hlow. }
  destruct (request_settles method endpoint json_data params retry st k
              Hk Hpre Hnt) as (Hret & Hraise & _).
  fold r in Hret, Hraise. rewrite Hans in Hret, Hraise.
  destruct (iteration_classification (session_for st) r resp)
    as (H401 & H403 & H404 & H409 & Hval & _ & Hok).
  fold b in H401, H403, H404, H409, Hval, Hok.
  repeat split; intros.
  - apply Hraise. auto.
  - apply Hraise. auto.
  - apply Hraise. auto.
  - apply Hraise. auto.
  - apply Hraise. auto.
  - apply Hret. auto.
Qed.

(** C1, at the failing input [rejecting].  A 400 response whose decoded body
    is a JSON array, not a mapping: [response_data.get] raises [AttributeError], the
    catch-all clause wraps it, and [_request] raises the generic API error
    where the classification table has a validation error with the default
    message. *)
Theorem validation_error_lost_without_mapping :
  _request "POST" "/user" None None true rejecting =
  (Raise (Veloce VeloceAPIError
            (JStr "Request failed: 'list' object has no attribute 'get'")
            None None),
   ended_at rejecting (request_of (self rejecting) "POST" "/user" None None) 0)
  /\
  isinstance (Veloce VeloceAPIError
                (JStr "Request failed: 'list' object has no attribute 'get'")
                None None) VeloceValidationError = false.
Proof.
  split; reflexivity.
Qed.

(** C3, at the failing input [recovering].  The first attempt meets a 503
    and is retried; the second receives a 422 whose decoded body is a JSON
    string.
    The call ends there, with no further attempt, but the error raised is
    the generic API error, not the validation error that matches 422: the
    [get] on a body that is not a mapping, again. *)
Theorem unprocessable_string_body_not_typed :
  _request "PUT" "/user/alice" None None true recovering =
  (Raise (Veloce VeloceAPIError
            (JStr "Request failed: 'str' object has no attribute 'get'")
            None None),
   advance (ensured recovering) 2
     [EvRequest 0 (request_of (self recovering) "PUT" "/user/alice" None None);
      EvSleep 1;
      EvRequest 0 (request_of (self recovering) "PUT" "/user/alice" None None)])
  /\
  isinstance (Veloce VeloceAPIError
                (JStr "Request failed: 'str' object has no attribute 'get'")
                None None) VeloceValidationError = false.
Proof.
  split; reflexivity.
Qed.

(** ** Headers *)

Lemma on_wire_requests s r evs :
  on_wire s r evs -> forall q, In q (requests evs) -> q = r.
Proof.
  induction 1 as [|ev evs [->|[d ->]] _ IH]; cbn; intros q Hq.
  - contradiction.
  - destruct Hq as [<-|Hq]; auto.
  - auto.
Qed.

Lemma ensured_events st :
  exists evs0,
    requests evs0 = [] /\ sleeps evs0 = [] /\
    ensured st = mkState (self (ensured st))
                   (mkWorld (server (world st)) (sent (world st))
                            (next_sid (world (ensured st)))
                            (trace (world st) ++ evs0)).
Proof.
  unfold ensured. destruct (live_session (self st)).
  - exists []. rewrite app_nil_r. destruct st as [c []]. auto.
  - exists [EvSessionOpen (next_sid (world st)) (timeout (self st))].
    cbn. auto.
Qed.

(** C9.  Every request that [_request] sends, on every attempt, carries
    exactly the two headers [X-API-Key], with the configured key, and
    [Content-Type: application/json]. *)
Theorem every_request_carries_the_headers
    method endpoint json_data params retry st :
  let st' := snd (_request method endpoint json_data params retry st) in
  exists evs,
    trace (world st') = trace (world st) ++ evs /\
    sent (world st') = (List.length (requests evs) + sent (world st))%nat /\
    forall q, In q (requests evs) ->
      req_headers q = [ ("X-API-Key", api_key (self st));
                        ("Content-Type", "application/json") ].
Proof.
  cbn zeta. rewrite request_state. unfold loop_of.
  set (r := request_of (self st) method endpoint json_data params).
  destruct (for_attempts_events (session_for st) r (budget (self st) retry)
              (range (budget (self st) retry)) None (ensured st))
    as (evs & Hsnd & Hwire & _).
  destruct (ensured_events st) as (evs0 & Hreq0 & _ & Hens).
  exists (evs0 ++ evs). rewrite Hsnd, Hens. unfold advance. cbn.
  rewrite requests_app, Hreq0, app_assoc. repeat split.
  intros q Hq. rewrite (on_wire_requests _ _ _ Hwire q Hq). reflexivity.
Qed.

(** ** Health check *)

Lemma health_check_run st :
  health_check st =
  (Ret (healthy (fst (_request "GET" "/admin" None None true st))),
   snd (_request "GET" "/admin" None None true st)).
Proof.
  unfold health_check, try_except, bind.
  destruct (_request "GET" "/admin" None None true st) as [[v|e] st'];
    cbn; [reflexivity|].
  destruct (isinstance e VeloceAuthError); [reflexivity|].
  destruct (isinstance e VeloceAPIError); reflexivity.
Qed.

Lemma iteration_raises_auth s r a n o e :
  fst (iteration s r a n o) = Raise e ->
  isinstance e VeloceAuthError = true ->
  exists m sc body,
    e = Veloce VeloceAuthError m (Some sc) body /\ (sc = 401 \/ sc = 403).
Proof.
  unfold iteration, attempt_step, try_except, attempt_try, bind,
    session_request, lone, resp_json; cbn.
  destruct o as [[st p]|c text]; cbn.
  - destruct p as [v|[] text]; cbn.
    all: destruct (st =? 401); [cbn; intros [= <-] _; eauto 10|].
    all: destruct (st =? 403); [cbn; intros [= <-] _; eauto 10|].
    all: split_tests; cbn; try (intros [= <-]; cbn; discriminate);
      try discriminate.
    all: unfold py_get; destruct v; cbn;
      try (intros [= <-]; cbn; discriminate).
    all: destruct (dict_lookup d "detail"); cbn; intros [= <-]; discriminate.
  - destruct c; cbn; split_tests; cbn;
      try (intros [= <-]; cbn; discriminate); discriminate.
Qed.

(** Whatever [_request] raises as an auth error carries status 401 or
    403. *)
Lemma request_raises_auth method endpoint json_data params retry st e :
  fst (_request method endpoint json_data params retry st) = Raise e ->
  isinstance e VeloceAuthError = true ->
  exists m sc body,
    e = Veloce VeloceAuthError m (Some sc) body /\ (sc = 401 \/ sc = 403).
Proof.
  set (n := budget (self st) retry).
  set (r := request_of (self st) method endpoint json_data params).
  destruct (Z.le_gt_cases n 0) as [Hn|Hn].
  - rewrite request_no_budget by exact Hn. cbn. intros [= <-]. discriminate.
  - destruct (stopping_attempt (fun i => transient (answer st i r))
                               (Z.to_nat n - 1)) as (k & Hk & Hp & Hs).
    destruct (loop_run method endpoint json_data params retry st k)
      as [Hrun Hnc]; fold r n; [lia|exact Hp| |].
    { destruct Hs as [Hs|Hs]; [left; exact Hs|right; lia]. }
    fold r n in Hrun, Hnc. rewrite request_unfold, Hrun.
    destruct (fst (iteration (session_for st) r (Z.of_nat k) n (answer st k r)))
      as [[le|value]|e'] eqn:E; cbn.
    + exfalso. apply (Hnc le). reflexivity.
    + discriminate.
    + intros [= <-]. eapply iteration_raises_auth. exact E.
Qed.



(** ** Undecodable bodies *)

Lemma iteration_decoded_or_empty s r a n o :
  iteration s r a n (decoded_or_empty o) = iteration s r a n o.
Proof.
  unfold iteration, attempt_step, try_except, attempt_try, bind,
    session_request, lone, resp_json; cbn.
  destruct o as [[st p]|c text]; cbn.
  - destruct p as [v|[] text]; cbn; split_tests; cbn; try reflexivity.
    all: unfold py_get; destruct v; cbn; try reflexivity.
    all: destruct (dict_lookup d "detail"); reflexivity.
  - destruct c; cbn; split_tests; reflexivity.
Qed.

Lemma for_attempts_lenient s r n l : forall le st,
  for_attempts s r n l le (lenient st) =
  (fst (for_attempts s r n l le st), lenient (snd (for_attempts s r n l le st))).
Proof.
  induction l as [|a l IH]; intros le st; [reflexivity|].
  rewrite !for_attempts_cons.
  change (answer (lenient st) 0 r) with (decoded_or_empty (answer st 0 r)).
  rewrite iteration_decoded_or_empty.
  destruct (fst (iteration s r a n (answer st 0 r))) as [[le'|value]|e];
    try reflexivity.
  change (advance (lenient st) 1 (snd (iteration s r a n (answer st 0 r))))
    with (lenient (advance st 1 (snd (iteration s r a n (answer st 0 r))))).
  apply IH.
Qed.

Lemma ensured_lenient st : ensured (lenient st) = lenient (ensured st).
Proof.
  unfold ensured, lenient. cbn. destruct (live_session (self st)); reflexivity.
Qed.

(** C5.  A body that fails to decode is replaced by the empty mapping and
    the response is then classified as usual: [_request] behaves exactly as
    it does against a server that had sent [{}] in its place, so a decode
    failure is never by itself the cause of an error.  In particular a 200
    response with an undecodable body makes [_request] return [(200, {})]. *)
Theorem undecodable_body_is_empty_mapping
    method endpoint json_data params retry st :
  let r := request_of (self st) method endpoint json_data params in
  let run := _request method endpoint json_data params retry st in
  _request method endpoint json_data params retry (lenient st)
    = (fst run, lenient (snd run)) /\
  forall k c text,
    Z.of_nat k < budget (self st) retry ->
    (forall i, (i < k)%nat -> transient (answer st i r) = true) ->
    answer st k r = Resp (mkResponse 200 (DecodeRaises c text)) ->
    run = (Ret (200, JObj []), ended_at st r k).
Proof.
  intros r run. subst run. split.
  - rewrite !request_unfold. unfold loop_of.
    rewrite ensured_lenient.
    change (session_for (lenient st)) with (session_for st).
    change (self (lenient st)) with (self st).
    rewrite for_attempts_lenient.
    destruct (for_attempts _ _ _ _ _ (ensured st)) as [[[[e|]|value]|e] st'];
      reflexivity.
  - intros k c text Hk Hpre Hans.
    destruct (request_classification method endpoint json_data params retry
                st k _ Hk Hpre Hans) as (_ & _ & _ & _ & _ & Hok);
      [cbn; lia|].
    apply Hok. cbn. intuition discriminate.
Qed.

(** ** Closing the session *)

Lemma close_run st : close st = (Ret tt, after_close st).
Proof.
  unfold close, after_close, bind, get_self. destruct st as [c w]; cbn.
  destruct (_session c) as [s|]; [|reflexivity].
  destruct (negb (closed s) && _owns_session c); reflexivity.
Qed.


Lemma after_close_no_session st :
  usable st -> _session (self (after_close st)) = None.
Proof.
  intros [Hown Hopen]. unfold after_close.
  destruct (_session (self st)) as [s|] eqn:E; [|exact E].
  rewrite Hown, (Hopen s eq_refl). reflexivity.
Qed.




Lemma request_self method endpoint json_data params retry st :
  self (snd (_request method endpoint json_data params retry st))
  = self (ensured st).
Proof.
  rewrite request_state. unfold loop_of.
  destruct (for_attempts_events (session_for st)
              (request_of (self st) method endpoint json_data params)
              (budget (self st) retry) (range (budget (self st) retry)) None
              (ensured st)) as (evs & -> & _).
  reflexivity.
Qed.

(** [usable] holds of a new client and is kept by every method. *)
Lemma usable_start srv n : usable (start srv n).
Proof. split; [reflexivity|discriminate]. Qed.

Lemma usable_ensured st : usable st -> usable (ensured st).
Proof.
  intros [Hown Hopen]. unfold ensured.
  destruct (live_session (self st)) eqn:E; [split; assumption|].
  split; [reflexivity|]. cbn. intros s [= <-].
  unfold session_for. rewrite E. reflexivity.
Qed.

Lemma usable_after_close st : usable st -> usable (after_close st).
Proof.
  intros H. split.
  - unfold after_close. destruct (_session (self st)); [|apply H].
    destruct (negb (closed s) && _owns_session (self st)); apply H.
  - rewrite (after_close_no_session st H). discriminate.
Qed.

Lemma usable_request method endpoint json_data params retry st :
  usable st -> usable (snd (_request method endpoint json_data params retry st)).
Proof.
  intros H. apply usable_ensured in H. unfold usable in *.
  rewrite request_self. exact H.
Qed.

Lemma usable_health_check st : usable st -> usable (snd (health_check st)).
Proof.
  intros H. rewrite health_check_run. cbn [snd]. apply usable_request, H.
Qed.


(** Scoped acquisition: entering the scope stores an open session, leaving
    it stores none. *)
Lemma scope_opens_then_closes st :
  usable st ->
  exists st1 st2,
    __aenter__ st = (Ret tt, st1) /\
    live_session (self st1) = Some (session_for st) /\
    __aexit__ st1 = (Ret tt, st2) /\
    _session (self st2) = None.
Proof.
  intros Hus. exists (ensured st), (after_close (ensured st)).
  unfold __aenter__, __aexit__, bind. rewrite ensure_session_run, close_run.
  repeat split.
  - unfold ensured, session_for.
    destruct (live_session (self st)) as [s|] eqn:E; [exact E|reflexivity].
  - apply after_close_no_session, usable_ensured, Hus.
Qed.

(** * Further properties *)

(** ** Construction *)

Lemma rstrip_slash_decompose s :
  exists j, s = (rstrip_slash s ++ slashes j)%string.
Proof.
  induction s as [|a rest [j IH]].
  - exists O. reflexivity.
  - cbn [rstrip_slash]. destruct (rstrip_slash rest) as [|b t] eqn:E.
    + cbn in IH. destruct (Ascii.eqb_spec a "/"%char) as [->|Hne].
      * exists (S j). cbn. rewrite <- IH. reflexivity.
      * exists j. cbn. rewrite <- IH. reflexivity.
    + exists j. cbn. cbn in IH. rewrite <- IH. reflexivity.
Qed.

Lemma rstrip_slash_no_trailing s :
  forall p, rstrip_slash s <> (p ++ "/")%string.
Proof.
  induction s as [|a rest IH]; intros p.
  - destruct p; discriminate.
  - cbn [rstrip_slash]. destruct (rstrip_slash rest) as [|b t] eqn:E.
    + destruct (Ascii.eqb_spec a "/"%char) as [->|Hne].
      * destruct p; discriminate.
      * destruct p as [|c p]; cbn.
        -- intros [= ->]. apply Hne. reflexivity.
        -- intros [= _ H]. destruct p; discriminate.
    + destruct p as [|c p]; cbn.
      * discriminate.
      * intros [= _ H]. apply (IH p). exact H.
Qed.

Lemma rstrip_slash_fixed s :
  (forall p, s <> (p ++ "/")%string) -> rstrip_slash s = s.
Proof.
  induction s as [|a rest IH]; intros Hs; [reflexivity|].
  cbn [rstrip_slash]. rewrite IH.
  - destruct rest as [|b t]; [|reflexivity].
    destruct (Ascii.eqb_spec a "/"%char) as [->|Hne]; [|reflexivity].
    exfalso. apply (Hs EmptyString). reflexivity.
  - intros p Hp. apply (Hs (String a p)). cbn. rewrite Hp. reflexivity.
Qed.

(** X1.  The base URL a client stores is the one it was given without its
    trailing slashes: it is what is left once those are removed, it does
    not end with a slash, and constructing a client from it stores it
    unchanged. *)
Theorem init_strips_trailing_slashes url key t n :
  let stored := base_url (VeloceClient url key t n) in
  (exists j, url = (stored ++ slashes j)%string) /\
  (forall p, stored <> (p ++ "/")%string) /\
  base_url (VeloceClient stored key t n) = stored.
Proof.
  cbn. split; [apply rstrip_slash_decompose|].
  split; [apply rstrip_slash_no_trailing|].
  apply rstrip_slash_fixed, rstrip_slash_no_trailing.
Qed.

(** ** The shape of a call *)

(** Every call with a budget stops on some attempt [k] within it: the
    earlier attempts met transient failures and were retried, and the
    answer to attempt [k] decides the outcome. *)
Lemma request_outcome method endpoint json_data params retry st :
  let r := request_of (self st) method endpoint json_data params in
  let s := session_for st in
  let n := budget (self st) retry in
  let run := _request method endpoint json_data params retry st in
  1 <= n ->
  exists k,
    Z.of_nat k < n /\
    (forall i, (i < k)%nat -> transient (answer st i r) = true) /\
    (transient (answer st k r) = false \/ Z.of_nat k = n - 1) /\
    snd run = ended_at st r k /\
    ((exists value,
        fst (iteration s r (Z.of_nat k) n (answer st k r)) = Ret (Return value)
        /\ fst run = Ret value) \/
     (exists e,
        fst (iteration s r (Z.of_nat k) n (answer st k r)) = Raise e
        /\ fst run = Raise e)).
Proof.
  intros r s n run Hn. subst run.
  destruct (stopping_attempt (fun i => transient (answer st i r))
                             (Z.to_nat n - 1)) as (k & Hk & Hp & Hs).
  assert (Hs' : transient (answer st k r) = false \/ Z.of_nat k = n - 1).
  { destruct Hs as [Hs|Hs]; [left; exact Hs|right; lia]. }
  destruct (loop_run method endpoint json_data params retry st k)
    as [Hrun Hnc]; fold r s n; [lia|exact Hp|exact Hs'|].
  fold r s n in Hrun, Hnc.
  exists k. split; [lia|]. split; [exact Hp|]. split; [exact Hs'|].
  rewrite request_unfold, Hrun.
  destruct (fst (iteration s r (Z.of_nat k) n (answer st k r)))
    as [[le|value]|e]; cbn [final].
  - exfalso. apply (Hnc le). reflexivity.
  - split; [reflexivity|]. left. exists value. split; reflexivity.
  - split; [reflexivity|]. right. exists e. split; reflexivity.
Qed.

Lemma attempts_trace_on_wire s r k : on_wire s r (attempts_trace s r k).
Proof.
  unfold attempts_trace, on_wire. apply Forall_app. split.
  - generalize 0%nat. induction k as [|k IH]; intros a; cbn.
    + constructor.
    + constructor; [left; reflexivity|].
      constructor; [right; eexists; reflexivity|]. apply IH.
  - constructor; [left; reflexivity|constructor].
Qed.

(** X2.  Whatever the server does, a call with a budget makes [k + 1]
    attempts for some [k + 1] within the budget, and its effects are those
    attempts and nothing else: as many requests, each the same (the method,
    the URL [base_url + endpoint], the body, the parameters and the headers
    of the call) and through the same session, a sleep of [min(2^i, 60)]
    after each attempt [i] but the last, and no sleep after the last. *)
Theorem request_effects_within_budget
    method endpoint json_data params retry st :
  let r := request_of (self st) method endpoint json_data params in
  let s := session_for st in
  let n := budget (self st) retry in
  1 <= n ->
  exists k evs,
    Z.of_nat (S k) <= n /\
    snd (_request method endpoint json_data params retry st)
      = advance (ensured st) (S k) evs /\
    requests evs = repeat r (S k) /\
    sleeps evs = map backoff (range (Z.of_nat k)) /\
    on_wire (sid s) r evs /\
    exists before, evs = before ++ [EvRequest (sid s) r].
Proof.
  intros r s n Hn.
  destruct (request_outcome method endpoint json_data params retry st Hn)
    as (k & Hk & _ & _ & Hsnd & _).
  exists k, (attempts_trace (sid s) r k). split; [lia|].
  split; [exact Hsnd|].
  split; [apply attempts_trace_requests|].
  split; [apply attempts_trace_sleeps|].
  split; [apply attempts_trace_on_wire|].
  exists (retried (sid s) r 0 k). reflexivity.
Qed.

Lemma backoff_bounds i : 0 <= i -> 1 <= backoff i <= 60.
Proof.
  intros Hi. unfold backoff.
  assert (0 < 2 ^ i) by (apply Z.pow_pos_nonneg; lia). lia.
Qed.

Lemma total_backoff k :
  0 <= total (map backoff (range (Z.of_nat k))) <= 60 * Z.of_nat k /\
  total (map backoff (range (Z.of_nat k))) <= 2 ^ Z.of_nat k - 1.
Proof.
  unfold range. rewrite Nat2Z.id.
  induction k as [|k IH].
  - cbn. lia.
  - rewrite seq_S, !map_app. cbn [seq map Nat.add].
    assert (Happ : forall l x, total (l ++ [x]) = total l + x).
    { unfold total. induction l as [|y l IHl]; intros x;
        cbn [app fold_right]; [lia|rewrite IHl; lia]. }
    rewrite Happ.
    assert (Hb := backoff_bounds (Z.of_nat k) (Nat2Z.is_nonneg k)).
    assert (Hp : backoff (Z.of_nat k) <= 2 ^ Z.of_nat k)
      by (unfold backoff; lia).
    replace (Z.of_nat (S k)) with (Z.of_nat k + 1) by lia.
    rewrite Z.pow_add_r by lia. lia.
Qed.

(** X3.  The time a call spends sleeping is bounded by its budget [n]
    alone: at most [60 * (n - 1)], and at most [2^(n-1) - 1]; a call that is
    allowed a single attempt never sleeps. *)
Theorem request_sleep_is_bounded method endpoint json_data params retry st :
  let n := budget (self st) retry in
  exists evs,
    trace (world (snd (_request method endpoint json_data params retry st)))
      = trace (world (ensured st)) ++ evs /\
    0 <= total (sleeps evs) <= 60 * Z.max 0 (n - 1) /\
    total (sleeps evs) <= 2 ^ Z.max 0 (n - 1) - 1.
Proof.
  intros n. destruct (Z.le_gt_cases n 0) as [Hn|Hn].
  - exists []. rewrite request_no_budget by exact Hn. cbn [snd].
    rewrite app_nil_r. split; [reflexivity|].
    replace (Z.max 0 (n - 1)) with 0 by lia. cbn. lia.
  - destruct (request_outcome method endpoint json_data params retry st)
      as (k & Hk & _ & _ & Hsnd & _); [fold n; lia|]. fold n in Hk.
    exists (attempts_trace (sid (session_for st))
              (request_of (self st) method endpoint json_data params) k).
    rewrite Hsnd. split; [reflexivity|].
    rewrite attempts_trace_sleeps.
    destruct (total_backoff k) as [[H0 H60] H2].
    replace (Z.max 0 (n - 1)) with (n - 1) by lia.
    assert (2 ^ Z.of_nat k <= 2 ^ (n - 1))
      by (apply Z.pow_le_mono_r; lia).
    split; [split; [exact H0|]|]; nia.
Qed.

(** X4.  When a call is allowed at least one attempt and every attempt
    meets a transient failure (a status of 500 or more, or a fault raised by
    [session.request]), of whichever kind, the budget is used up and the
    error raised tells of the last attempt alone: the server error of its
    response, or its transport fault wrapped; the failures recorded before
    are not reported. *)
Theorem exhaustion_reports_the_last_failure
    method endpoint json_data params retry st :
  let r := request_of (self st) method endpoint json_data params in
  let n := Z.to_nat (budget (self st) retry) in
  1 <= budget (self st) retry ->
  (forall i, (i < n)%nat -> transient (answer st i r) = true) ->
  _request method endpoint json_data params retry st
  = (Raise (exhausted (answer st (n - 1) r)), ended_at st r (n - 1)).
Proof.
  intros r n Hn Hall.
  destruct (loop_run method endpoint json_data params retry st (n - 1))
    as [Hrun _]; fold r; [lia|intros; apply Hall; lia|right; lia|].
  fold r in Hrun. rewrite request_unfold, Hrun.
  rewrite iteration_transient_last by (try apply Hall; lia).
  reflexivity.
Qed.

(** ** What a call can end with *)

Ltac case_status st :=
  destruct (st =? 401) eqn:E401;
  [|destruct (st =? 403) eqn:E403;
    [|destruct (st =? 404) eqn:E404;
      [|destruct (st =? 409) eqn:E409;
        [|destruct ((st =? 400) || (st =? 422)) eqn:E400;
          [|destruct (500 <=? st) eqn:E500]]]]].

Ltac table :=
  unfold class_of_status; cbn [status];
  repeat match goal with
    | E : _ = _ |- _ => rewrite E
    end; reflexivity.

(** What an iteration can raise: the generic error, for a fault of the
    transport or for a 400 or 422 whose body is not a mapping, or else the
    error that the status table gives the response, with its status and
    body. *)
Lemma iteration_raise_inv s r a n o e :
  fst (iteration s r a n o) = Raise e ->
  (exists msg,
     e = Veloce VeloceAPIError (JStr msg) None None /\
     forall resp, o = Resp resp ->
       class_of_status (status resp) = Some VeloceValidationError) \/
  (exists c m resp,
     o = Resp resp /\
     e = Veloce c m (Some (status resp)) (Some (body_of (payload resp))) /\
     class_of_status (status resp) = Some c).
Proof.
  unfold iteration, attempt_step, try_except, attempt_try, bind,
    session_request, lone, resp_json; cbn.
  destruct o as [[st p]|c text]; cbn.
  - destruct p as [v|[] text]; cbn.
    all: case_status st; cbn.
    all: try (apply Z.eqb_eq in E401; subst st).
    all: try (apply Z.eqb_eq in E403; subst st).
    all: try (apply Z.eqb_eq in E404; subst st).
    all: try (apply Z.eqb_eq in E409; subst st).
    all: try (intros [= <-]; right; do 3 eexists;
              split; [reflexivity|split; [reflexivity|table]]).
    all: try discriminate.
    all: try (destruct (a <? n - 1); cbn;
              [discriminate|
               intros [= <-]; right; do 3 eexists;
               split; [reflexivity|split; [reflexivity|table]]]).
    all: unfold py_get; try destruct v; cbn.
    all: try (intros [= <-]; left; eexists; split;
              [reflexivity|intros resp [= <-]; table]).
    all: try (destruct (dict_lookup d "detail"); cbn).
    all: intros [= <-]; right; do 3 eexists;
         (split; [reflexivity|split; [reflexivity|table]]).
  - destruct c; cbn; destruct (a <? n - 1); cbn; try discriminate.
    all: intros [= <-]; left; eexists; split;
         [reflexivity|intros resp; discriminate].
Qed.

(** What an iteration can return: the status and body of a response that
    the status table gives no error. *)
Lemma iteration_return_inv s r a n o value :
  fst (iteration s r a n o) = Ret (Return value) ->
  exists resp,
    o = Resp resp /\
    value = (status resp, body_of (payload resp)) /\
    class_of_status (status resp) = None.
Proof.
  unfold iteration, attempt_step, try_except, attempt_try, bind,
    session_request, lone, resp_json; cbn.
  destruct o as [[st p]|c text]; cbn.
  - destruct p as [v|[] text]; cbn.
    all: case_status st; cbn; try discriminate.
    all: try (destruct (a <? n - 1); cbn; discriminate).
    all: try (intros [= <-]; eexists;
              split; [reflexivity|split; [reflexivity|table]]).
    all: unfold py_get; try destruct v; cbn; try discriminate.
    all: destruct (dict_lookup d "detail"); cbn; discriminate.
  - destruct c; cbn; destruct (a <? n - 1); cbn; discriminate.
Qed.

(** X5.  Whatever escapes [_request] is a Veloce error, never an exception
    of the transport or of Python: either the generic [VeloceAPIError], with
    a string message and neither status code nor body, or the error that the
    status table gives a response really received, carrying the status and
    the decoded body of that response. *)
Theorem request_raises_only_veloce_errors
    method endpoint json_data params retry st e :
  let r := request_of (self st) method endpoint json_data params in
  fst (_request method endpoint json_data params retry st) = Raise e ->
  isinstance e VeloceAPIError = true /\
  ((exists msg, e = Veloce VeloceAPIError (JStr msg) None None) \/
   (exists c m k resp,
      Z.of_nat k < budget (self st) retry /\
      answer st k r = Resp resp /\
      e = Veloce c m (Some (status resp)) (Some (body_of (payload resp))) /\
      class_of_status (status resp) = Some c)).
Proof.
  intros r Hraise.
  assert (H : (exists msg, e = Veloce VeloceAPIError (JStr msg) None None) \/
              (exists c m k resp,
                 Z.of_nat k < budget (self st) retry /\
                 answer st k r = Resp resp /\
                 e = Veloce c m (Some (status resp))
                       (Some (body_of (payload resp))) /\
                 class_of_status (status resp) = Some c)).
  { destruct (Z.le_gt_cases (budget (self st) retry) 0) as [Hn|Hn].
    - rewrite request_no_budget in Hraise by exact Hn.
      injection Hraise as <-. left. eexists. reflexivity.
    - destruct (request_outcome method endpoint json_data params retry st)
        as (k & Hk & _ & _ & _ & [(v & _ & Hv)|(e' & He' & Hv)]); [lia| |].
      + rewrite Hv in Hraise. discriminate.
      + rewrite Hv in Hraise. injection Hraise as ->.
        destruct (iteration_raise_inv _ _ _ _ _ _ He')
          as [(msg & -> & _)|(c & m & resp & Hans & -> & Hc)].
        * left. eexists. reflexivity.
        * right. exists c, m, k, resp. auto. }
  split; [|exact H].
  destruct H as [(msg & ->)|(c & m & k & resp & _ & _ & -> & _)];
    [reflexivity|destruct c; reflexivity].
Qed.

(** X6.  When [_request] returns [(status, body)], a response with that
    status and that decoded body was received, on the first attempt that
    did not meet a transient failure; the status is below 500 and is none
    of 401, 403, 404, 409, 400 and 422. *)
Theorem request_returns_an_unclassified_status
    method endpoint json_data params retry st sc body :
  let r := request_of (self st) method endpoint json_data params in
  fst (_request method endpoint json_data params retry st) = Ret (sc, body) ->
  sc < 500 /\ ~ In sc [401; 403; 404; 409; 400; 422] /\
  exists k resp,
    Z.of_nat k < budget (self st) retry /\
    (forall i, (i < k)%nat -> transient (answer st i r) = true) /\
    answer st k r = Resp resp /\
    sc = status resp /\ body = body_of (payload resp).
Proof.
  intros r Hret.
  destruct (Z.le_gt_cases (budget (self st) retry) 0) as [Hn|Hn].
  { rewrite request_no_budget in Hret by exact Hn. discriminate. }
  destruct (request_outcome method endpoint json_data params retry st)
    as (k & Hk & Hpre & _ & _ & [(v & Hit & Hv)|(e' & _ & Hv)]); [lia| |].
  - rewrite Hv in Hret. injection Hret as ->.
    destruct (iteration_return_inv _ _ _ _ _ _ Hit)
      as (resp & Hans & [= -> ->] & Hc).
    assert (Hsc : status resp < 500 /\
                  ~ In (status resp) [401; 403; 404; 409; 400; 422]).
    { revert Hc. unfold class_of_status. cbn [In].
      repeat match goal with
        | |- context [?x =? ?y] => destruct (Z.eqb_spec x y)
        end; cbn; try discriminate.
      destruct (Z.leb_spec 500 (status resp)); [discriminate|].
      intros _. split; [lia|]. intuition congruence. }
    destruct Hsc as [Hlt Hnot]. split; [exact Hlt|]. split; [exact Hnot|].
    exists k, resp. fold r in Hpre, Hans. auto.
  - rewrite Hv in Hret. discriminate.
Qed.

(** X7.  What [health_check] answers when the probe meets a response below
    500: [False] for 404, 409, 400 and 422, [True] for every other status,
    so also for a redirect or for a 429, as for 401 and 403. *)
Theorem health_check_below_500 st k resp :
  let r := request_of (self st) "GET" "/admin" None None in
  let sc := status resp in
  Z.of_nat k < max_retries (self st) ->
  (forall i, (i < k)%nat -> transient (answer st i r) = true) ->
  answer st k r = Resp resp ->
  sc < 500 ->
  fst (health_check st)
  = Ret (negb ((sc =? 404) || (sc =? 409) || (sc =? 400) || (sc =? 422))).
Proof.
  intros r sc Hk Hpre Hans Hlow. subst sc. rewrite health_check_run.
  cbn [fst].
  assert (Hnt : transient (answer st k r) = false).
  { rewrite Hans. cbn. apply Z.leb_gt. exact Hlow. }
  destruct (request_settles "GET" "/admin" None None true st k Hk Hpre Hnt)
    as (Hret & Hraise & Hnc).
  fold r in Hret, Hraise, Hnc. rewrite Hans in Hret, Hraise, Hnc.
  assert (Hh : healthy (fst (_request "GET" "/admin" None None true st))
               = match class_of_status (status resp) with
                 | None | Some VeloceAuthError => true
                 | Some _ => false
                 end).
  { destruct (fst (iteration (session_for st) r 0 1 (Resp resp)))
      as [[le|value]|e] eqn:E.
    - exfalso. apply (Hnc le). reflexivity.
    - rewrite (Hret value eq_refl). cbn.
      destruct (iteration_return_inv _ _ _ _ _ _ E) as (resp' & [= <-] & _ & Hc).
      rewrite Hc. reflexivity.
    - rewrite (Hraise e eq_refl). cbn.
      destruct (iteration_raise_inv _ _ _ _ _ _ E)
        as [(msg & -> & Hc)|(c & m & resp' & [= <-] & -> & Hc)].
      + rewrite (Hc resp eq_refl). reflexivity.
      + rewrite Hc. destruct c; reflexivity. }
  rewrite Hh. f_equal. unfold class_of_status.
  repeat match goal with
    | |- context [?x =? ?y] => destruct (Z.eqb_spec x y); try lia
    end; cbn; try reflexivity.
  destruct (Z.leb_spec 500 (status resp)); [lia|reflexivity].
Qed.

(** ** Sessions across calls *)

Lemma request_trace method endpoint json_data params retry st :
  exists evs,
    snd (_request method endpoint json_data params retry st)
      = advance (ensured st) (List.length (requests evs)) evs /\
    on_wire (sid (session_for st))
      (request_of (self st) method endpoint json_data params) evs.
Proof.
  rewrite request_state. unfold loop_of.
  destruct (for_attempts_events (session_for st)
              (request_of (self st) method endpoint json_data params)
              (budget (self st) retry) (range (budget (self st) retry)) None
              (ensured st)) as (evs & Hsnd & Hwire & _).
  exists evs. split; assumption.
Qed.

Lemma ensured_live st :
  live_session (self (ensured st)) = Some (session_for st) /\
  closed (session_for st) = false.
Proof.
  unfold ensured, session_for.
  destruct (live_session (self st)) as [s|] eqn:E.
  - split; [exact E|]. unfold live_session in E.
    destruct (_session (self st)) as [s'|]; [|discriminate].
    destruct (closed s') eqn:Ec; [discriminate|]. injection E as <-. exact Ec.
  - split; reflexivity.
Qed.

Lemma ensured_of_live st s : live_session (self st) = Some s -> ensured st = st.
Proof. intros E. unfold ensured. rewrite E. reflexivity. Qed.

(** X8.  After a call of [_request], however it ended and whatever the
    state before, the client stores an open session, the one the call
    used; the next call sends its requests through that same session and
    opens none. *)
Theorem next_request_reuses_the_session
    method endpoint json_data params retry
    method' endpoint' json_data' params' retry' st :
  let st1 := snd (_request method endpoint json_data params retry st) in
  let s := session_for st in
  live_session (self st1) = Some s /\
  closed s = false /\
  exists evs,
    snd (_request method' endpoint' json_data' params' retry' st1)
      = advance st1 (List.length (requests evs)) evs /\
    on_wire (sid s)
      (request_of (self st1) method' endpoint' json_data' params') evs.
Proof.
  intros st1 s.
  destruct (ensured_live st) as [Hlive Hopen].
  assert (Hlive1 : live_session (self st1) = Some s).
  { subst st1. rewrite request_self. exact Hlive. }
  split; [exact Hlive1|]. split; [exact Hopen|].
  destruct (request_trace method' endpoint' json_data' params' retry' st1)
    as (evs & Hsnd & Hwire).
  exists evs. rewrite (ensured_of_live st1 s Hlive1) in Hsnd.
  split; [exact Hsnd|].
  unfold session_for in Hwire. rewrite Hlive1 in Hwire. exact Hwire.
Qed.

Lemma open_sessions_from_app evs : forall acc evs',
  open_sessions_from acc (evs ++ evs')
  = open_sessions_from (open_sessions_from acc evs) evs'.
Proof.
  induction evs as [|[] evs IH]; intros acc evs'; cbn; auto.
Qed.

Lemma open_sessions_from_on_wire s r evs : forall acc,
  on_wire s r evs -> open_sessions_from acc evs = acc.
Proof.
  induction evs as [|ev evs IH]; intros acc Hw; [reflexivity|].
  inversion Hw as [|? ? [->|[d ->]] Hrest]; subst; cbn; apply IH, Hrest.
Qed.

Lemma tidy_ensured st : tidy st -> tidy (ensured st).
Proof.
  intros [Hus Hop]. split; [apply usable_ensured, Hus|].
  unfold ensured. destruct (live_session (self st)) as [s|] eqn:E.
  - exact Hop.
  - destruct Hus as [_ Hopen].
    assert (Es : _session (self st) = None).
    { unfold live_session in E. destruct (_session (self st)) as [s'|];
        [|reflexivity].
      rewrite (Hopen s' eq_refl) in E. discriminate. }
    rewrite Es in Hop. cbn. unfold open_sessions in *.
    rewrite open_sessions_from_app, Hop.
    unfold session_for. rewrite E. reflexivity.
Qed.

Lemma tidy_after_close st : tidy st -> tidy (after_close st).
Proof.
  intros [Hus Hop]. split; [apply usable_after_close, Hus|].
  rewrite (after_close_no_session st Hus).
  unfold after_close. destruct Hus as [Hown Hopen].
  destruct (_session (self st)) as [s|] eqn:E; [|exact Hop].
  rewrite Hown, (Hopen s eq_refl). cbn.
  unfold open_sessions in *. rewrite open_sessions_from_app, Hop. cbn.
  destruct (Nat.eq_dec (sid s) (sid s)); [reflexivity|contradiction].
Qed.

Lemma tidy_advance st m s r evs :
  on_wire s r evs -> tidy st -> tidy (advance st m evs).
Proof.
  intros Hw [Hus Hop]. split; [exact Hus|]. cbn.
  unfold open_sessions in *.
  rewrite open_sessions_from_app, (open_sessions_from_on_wire s r evs _ Hw).
  exact Hop.
Qed.

Lemma tidy_request method endpoint json_data params retry st :
  tidy st -> tidy (snd (_request method endpoint json_data params retry st)).
Proof.
  intros H.
  destruct (request_trace method endpoint json_data params retry st)
    as (evs & -> & Hw).
  eapply tidy_advance; [exact Hw|apply tidy_ensured, H].
Qed.

Lemma tidy_run_call c st : tidy st -> tidy (run_call c st).
Proof.
  intros H. destruct c; cbn [run_call].
  - rewrite ensure_session_run. apply tidy_ensured, H.
  - rewrite close_run. apply tidy_after_close, H.
  - apply tidy_request, H.
  - rewrite health_check_run. apply tidy_request, H.
  - unfold __aenter__, bind. rewrite ensure_session_run.
    apply tidy_ensured, H.
  - unfold __aexit__. rewrite close_run. apply tidy_after_close, H.
Qed.

(** X9.  Through any sequence of calls on a client, the sessions that have
    been opened and not closed are the stored session and no other: at most
    one session is open at any time, none is leaked, and none is open once
    [close] has run. *)
Theorem no_session_is_leaked cs : forall st,
  tidy st ->
  tidy (run_calls cs st) /\
  (List.length (open_sessions (trace (world (run_calls cs st)))) <= 1)%nat /\
  open_sessions (trace (world (run_calls (cs ++ [call_close]) st))) = [].
Proof.
  assert (Hall : forall cs st, tidy st -> tidy (run_calls cs st)).
  { clear cs. induction cs as [|c cs IH]; intros st H; [exact H|].
    cbn. apply IH, tidy_run_call, H. }
  intros st H. split; [apply Hall, H|]. split.
  - destruct (Hall cs st H) as [_ ->].
    destruct (_session (self (run_calls cs st))); cbn; lia.
  - unfold run_calls. rewrite fold_left_app. cbn [fold_left run_call].
    rewrite close_run. cbn [snd].
    change (fold_left (fun st0 c => run_call c st0) cs st)
      with (run_calls cs st).
    destruct (tidy_after_close _ (Hall cs st H)) as [Hus Hop].
    rewrite Hop.
    rewrite (after_close_no_session _ (proj1 (Hall cs st H))). reflexivity.
Qed.

Lemma config_ensured st :
  config (self (ensured st)) = config (self st) /\
  server (world (ensured st)) = server (world st).
Proof.
  unfold ensured. destruct (live_session (self st)); split; reflexivity.
Qed.

Lemma config_after_close st :
  config (self (after_close st)) = config (self st) /\
  server (world (after_close st)) = server (world st).
Proof.
  unfold after_close. destruct (_session (self st)) as [s|];
    [|split; reflexivity].
  destruct (negb (closed s) && _owns_session (self st)); split; reflexivity.
Qed.

Lemma config_request method endpoint json_data params retry st :
  let st' := snd (_request method endpoint json_data params retry st) in
  config (self st') = config (self st) /\
  server (world st') = server (world st).
Proof.
  cbn zeta.
  destruct (request_trace method endpoint json_data params retry st)
    as (evs & -> & _).
  apply config_ensured.
Qed.

Lemma config_run_call c st :
  config (self (run_call c st)) = config (self st) /\
  server (world (run_call c st)) = server (world st).
Proof.
  destruct c; cbn [run_call].
  - rewrite ensure_session_run. apply config_ensured.
  - rewrite close_run. apply config_after_close.
  - apply config_request.
  - rewrite health_check_run. apply config_request.
  - unfold __aenter__, bind. rewrite ensure_session_run. apply config_ensured.
  - unfold __aexit__. rewrite close_run. apply config_after_close.
Qed.

(** X10.  No call changes the configuration of the client: the base URL,
    the API key, the timeout and [max_retries] stay what [__init__] stored,
    and every session the client opens is created with that timeout. *)
Theorem configuration_is_immutable cs : forall st,
  config (self (run_calls cs st)) = config (self st) /\
  exists evs,
    trace (world (run_calls cs st)) = trace (world st) ++ evs /\
    forall s t, In (EvSessionOpen s t) evs -> t = timeout (self st).
Proof.
  induction cs as [|c cs IH]; intros st.
  - split; [reflexivity|]. exists []. rewrite app_nil_r.
    split; [reflexivity|]. intros s t [].
  - cbn [run_calls fold_left]. fold (run_calls cs (run_call c st)).
    destruct (IH (run_call c st)) as (Hcfg & evs & Htr & Ht).
    destruct (config_run_call c st) as [Hc _].
    split; [rewrite Hcfg; exact Hc|].
    assert (Hstep : exists evs0,
               trace (world (run_call c st)) = trace (world st) ++ evs0 /\
               forall s t, In (EvSessionOpen s t) evs0 -> t = timeout (self st)).
    { assert (Hens : exists evs0,
                 trace (world (ensured st)) = trace (world st) ++ evs0 /\
                 forall s t, In (EvSessionOpen s t) evs0
                             -> t = timeout (self st)).
      { unfold ensured. destruct (live_session (self st)).
        - exists []. rewrite app_nil_r. split; [reflexivity|]. intros s0 t [].
        - eexists. split; [reflexivity|].
          intros s0 t [[= _ <-]|[]]. reflexivity. }
      assert (Hclose : exists evs0,
                 trace (world (after_close st)) = trace (world st) ++ evs0 /\
                 forall s t, In (EvSessionOpen s t) evs0
                             -> t = timeout (self st)).
      { unfold after_close. destruct (_session (self st)) as [s0|].
        - destruct (negb (closed s0) && _owns_session (self st)).
          + eexists. split; [reflexivity|]. intros s t [H|[]]. discriminate.
          + exists []. rewrite app_nil_r. split; [reflexivity|]. intros s t [].
        - exists []. rewrite app_nil_r. split; [reflexivity|]. intros s t []. }
      assert (Hreq : forall method endpoint json_data params retry,
                 exists evs0,
                   trace (world (snd (_request method endpoint json_data
                                        params retry st)))
                     = trace (world st) ++ evs0 /\
                   forall s t, In (EvSessionOpen s t) evs0
                               -> t = timeout (self st)).
      { intros. destruct (request_trace method endpoint json_data params
                            retry st) as (evs1 & -> & Hw).
        destruct Hens as (evs0 & Hens & Ht0).
        exists (evs0 ++ evs1). cbn. rewrite Hens, app_assoc.
        split; [reflexivity|]. intros s t Hin.
        apply in_app_or in Hin. destruct Hin as [Hin|Hin]; [eauto|].
        unfold on_wire in Hw. rewrite Forall_forall in Hw.
        destruct (Hw _ Hin) as [H|[d H]]; discriminate. }
      destruct c; cbn [run_call].
      - rewrite ensure_session_run. exact Hens.
      - rewrite close_run. exact Hclose.
      - apply Hreq.
      - rewrite health_check_run. apply Hreq.
      - unfold __aenter__, bind. rewrite ensure_session_run. exact Hens.
      - unfold __aexit__. rewrite close_run. exact Hclose. }
    destruct Hstep as (evs0 & Htr0 & Ht0).
    exists (evs0 ++ evs). rewrite Htr, Htr0, app_assoc.
    split; [reflexivity|]. intros s t Hin.
    apply in_app_or in Hin. destruct Hin as [Hin|Hin]; [eauto|].
    rewrite (Ht s t Hin).
    assert (Hcfg' : config (self (run_call c st)) = config (self st))
      by exact Hc.
    unfold config in Hcfg'. injection Hcfg' as _ _ Hto _. exact Hto.
Qed.

(** ** The budget *)


Lemma ensured_with_max_retries st m :
  ensured (with_max_retries st m)
  = mkState (self (ensured (with_max_retries st m))) (world (ensured st)) /\
  session_for (with_max_retries st m) = session_for st.
Proof.
  unfold ensured, session_for, with_max_retries, live_session. cbn.
  destruct (_session (self st)) as [s|]; [destruct (closed s)|];
    split; reflexivity.
Qed.


(** X12.  A call that ends on an answer which is not a transient failure
    ends the same way, after the same requests and sleeps, under any other
    [max_retries] and retry flag that allow it to get that far: a larger
    budget changes nothing for it. *)
Theorem settled_call_ignores_the_rest_of_the_budget
    method endpoint json_data params retry retry' m' st k :
  let st' := with_max_retries st m' in
  let r := request_of (self st) method endpoint json_data params in
  Z.of_nat k < budget (self st) retry ->
  Z.of_nat k < budget (self st') retry' ->
  (forall i, (i < k)%nat -> transient (answer st i r) = true) ->
  transient (answer st k r) = false ->
  fst (_request method endpoint json_data params retry' st')
    = fst (_request method endpoint json_data params retry st) /\
  world (snd (_request method endpoint json_data params retry' st'))
    = world (snd (_request method endpoint json_data params retry st)).
Proof.
  intros st' r Hk Hk' Hpre Hnt.
  destruct (request_settles method endpoint json_data params retry st k
              Hk Hpre Hnt) as (Hret & Hraise & Hnc).
  destruct (request_settles method endpoint json_data params retry' st' k
              Hk' Hpre Hnt) as (Hret' & Hraise' & _).
  destruct (ensured_with_max_retries st m') as [He Hs].
  fold st' in He, Hs. fold r in Hret, Hraise, Hnc.
  change (request_of (self st') method endpoint json_data params)
    with r in Hret', Hraise'.
  change (answer st' k r) with (answer st k r) in Hret', Hraise'.
  rewrite Hs in Hret', Hraise'.
  assert (Hw : world (ended_at st' r k) = world (ended_at st r k)).
  { unfold ended_at. rewrite Hs, He. reflexivity. }
  destruct (fst (iteration (session_for st) r 0 1 (answer st k r)))
    as [[le|value]|e].
  - exfalso. apply (Hnc le). reflexivity.
  - rewrite (Hret value eq_refl), (Hret' value eq_refl). split; [reflexivity|].
    exact Hw.
  - rewrite (Hraise e eq_refl), (Hraise' e eq_refl). split; [reflexivity|].
    exact Hw.
Qed.

(** ** Scoped use *)

Lemma async_with_run {A : Type} (body : M A) st :
  async_with body st
  = (fst (body (ensured st)), after_close (snd (body (ensured st)))).
Proof.
  unfold async_with, __aenter__, __aexit__, bind, ret, raise.
  rewrite ensure_session_run. cbv beta iota.
  destruct (body (ensured st)) as [[a|e] st2]; rewrite close_run; reflexivity.
Qed.

(** X13.  [async with client: await client._request(...)]: the request runs
    on a client whose session is open and ends as it would there; when the
    scope is left, by the value or by the error of the request, the session
    has been closed: none is stored and none is left open. *)
Theorem scope_closes_the_session_on_every_exit
    method endpoint json_data params retry st :
  let body := _request method endpoint json_data params retry in
  let out := async_with body st in
  tidy st ->
  fst out = fst (body (ensured st)) /\
  _session (self (snd out)) = None /\
  open_sessions (trace (world (snd out))) = [] /\
  In (EvSessionClose (sid (session_for st))) (trace (world (snd out))).
Proof.
  intros body out Ht. subst out. rewrite async_with_run. cbn [fst snd].
  assert (Ht2 : tidy (snd (body (ensured st))))
    by (apply tidy_request, tidy_ensured, Ht).
  assert (Hl : live_session (self (snd (body (ensured st))))
               = Some (session_for st)).
  { subst body. rewrite request_self.
    destruct (ensured_live st) as [Hlive _].
    rewrite (ensured_of_live _ _ Hlive). exact Hlive. }
  set (st2 := snd (body (ensured st))) in *.
  split; [reflexivity|].
  split; [apply after_close_no_session, Ht2|].
  destruct (tidy_after_close st2 Ht2) as [_ Hop].
  rewrite (after_close_no_session st2 (proj1 Ht2)) in Hop.
  split; [exact Hop|].
  unfold after_close.
  unfold live_session in Hl. destruct Ht2 as [[Hown Hopen] _].
  destruct (_session (self st2)) as [s|]; [|discriminate].
  rewrite (Hopen s eq_refl) in Hl. injection Hl as ->.
  rewrite Hown, (Hopen _ eq_refl). cbn. apply in_or_app. right. left.
  reflexivity.
Qed.

(** ** Transport faults and the probe, revisited *)


(** C6, as amended.  [health_check] calls [_request] for [GET /admin] with
    the retry flag true and returns a boolean on every outcome of that
    call, never raising: [True] when the call returns or raises an auth
    error (which then carries status 401 or 403), [False] when it raises
    anything else.  With [max_retries >= 1] at least one request
    [GET base_url/admin], with no body and no parameters, goes out, and
    every request sent is that one; with [max_retries <= 0] no request is
    sent and the answer is [False]. *)
Theorem health_check_always_answers st :
  let probe := _request "GET" "/admin" None None true st in
  let r := mkRequest "GET" (base_url (self st) ++ "/admin") None None
                     (_get_headers (self st)) in
  (exists b,
     health_check st = (Ret b, snd probe) /\
     (b = true <->
      (exists value, fst probe = Ret value) \/
      (exists m sc body,
         fst probe = Raise (Veloce VeloceAuthError m (Some sc) body) /\
         (sc = 401 \/ sc = 403))) /\
     (b = false <->
      exists e, fst probe = Raise e /\ isinstance e VeloceAuthError = false))
  /\
  (1 <= max_retries (self st) ->
   exists k evs,
     Z.of_nat (S k) <= max_retries (self st) /\
     snd (health_check st) = advance (ensured st) (S k) evs /\
     requests evs = repeat r (S k)) /\
  (max_retries (self st) <= 0 ->
   health_check st = (Ret false, ensured st)).
Proof.
  intros probe r. split; [|split].
  - exists (healthy (fst probe)). subst probe.
    split; [apply health_check_run|].
    destruct (fst (_request "GET" "/admin" None None true st)) as [v|e] eqn:E;
      cbn [healthy].
    + split; split; try discriminate.
      * intros _. left. eauto.
      * reflexivity.
      * intros (e & He & _). discriminate.
    + split; split.
      * intros Hi. right.
        destruct (request_raises_auth _ _ _ _ _ _ _ E Hi)
          as (m & sc & body & -> & Hsc).
        eauto 10.
      * intros [(value & Hv)|(m & sc & body & [= ->] & _)];
          [discriminate|reflexivity].
      * intros Hi. exists e. auto.
      * intros (e' & [= <-] & Hi). exact Hi.
  - intros Hn. rewrite health_check_run. cbn [snd].
    destruct (request_outcome "GET" "/admin" None None true st Hn)
      as (k & Hk & _ & _ & Hsnd & _).
    exists k, (attempts_trace (sid (session_for st)) r k).
    split; [cbn [budget] in Hk; lia|]. split; [exact Hsnd|].
    apply attempts_trace_requests.
  - intros Hn. rewrite health_check_run, request_no_budget by exact Hn.
    reflexivity.
Qed.

End Request.

(** * Instances *)

(** The amended C2 at [down], a panel answering 503 to a client with
    [max_retries = 3]: three requests, sleeps of 1 and 2, then the server
    error; and a single request without the retry flag. *)
Lemma request_retry_budget_at_down :
  1 <= max_retries (self down) /\
  _request by_message "GET" "/users" None None true down =
    (Raise (Veloce VeloceServerError (JStr "Server error")
                   (Some 503) (Some (JObj []))),
     advance (ensured down) 3
       (attempts_trace 0 (request_of (self down) "GET" "/users" None None) 2))
  /\
  sleeps (attempts_trace 0 (request_of (self down) "GET" "/users" None None) 2)
    = [1; 2] /\
  exists res,
    _request by_message "GET" "/users" None None false down =
      (res, advance (ensured down) 1
              [EvRequest 0 (request_of (self down) "GET" "/users" None None)]).
Proof.
  destruct (request_retry_budget by_message "GET" "/users" None None down)
    as [HA HB].
  destruct HA as (resp & Hresp & Hrun & _ & Hsl).
  - simpl. lia.
  - intros i Hi. eexists. split; [reflexivity|simpl; lia].
  - simpl in Hresp. injection Hresp as <-.
    split; [simpl; lia|]. split; [exact Hrun|]. split; [exact Hsl|exact HB].
Defined.

(** C2 as stated fails at [down_no_budget]: the retry flag is true and every
    attempt, there being none, yields 500 or more, yet what is raised is the
    generic error of the fallback, not a server error. *)
Lemma no_budget_raises_no_server_error :
  (forall i, (i < Z.to_nat (max_retries (self down_no_budget)))%nat ->
     exists resp,
       answer down_no_budget i
         (request_of (self down_no_budget) "GET" "/users" None None)
       = Resp resp /\ 500 <= status resp) /\
  (forall str_veloce,
     fst (_request str_veloce "GET" "/users" None None true down_no_budget)
     = Raise (Veloce VeloceAPIError (JStr "Request failed after 0 attempts")
                     None None)) /\
  (forall str_veloce m sc body,
     fst (_request str_veloce "GET" "/users" None None true down_no_budget)
     <> Raise (Veloce VeloceServerError m sc body)).
Proof.
  split; [|split].
  - intros i Hi. simpl in Hi. lia.
  - intros sv. reflexivity.
  - intros sv m sc body. discriminate.
Qed.

(** The amended C7 at [down]: with a budget of three attempts the loop does
    not fall through. *)
Lemma fallback_only_without_budget_at_down :
  1 <= budget (self down) true /\
  forall le,
    fst (loop_of by_message "GET" "/users" None None true down)
    <> Ret (Exhausted le).
Proof.
  split; [simpl; lia|].
  apply (fallback_only_without_budget by_message "GET" "/users" None None
           true down).
  simpl. lia.
Defined.

(** C7 as stated fails at [up_no_budget]: the loop body never runs, the loop
    falls through and the code after it raises. *)
Lemma fallback_reached_without_budget :
  (forall str_veloce,
     loop_of str_veloce "GET" "/users" None None true up_no_budget
     = (Ret (Exhausted None), ensured up_no_budget)) /\
  (forall str_veloce,
     _request str_veloce "GET" "/users" None None true up_no_budget
     = (Raise (Veloce VeloceAPIError (JStr "Request failed after 0 attempts")
                      None None),
        ensured up_no_budget)).
Proof.
  split; intros sv; reflexivity.
Qed.



(** C5 at [garbled]: the HTML page is read as the empty mapping. *)
Lemma undecodable_body_at_garbled :
  answer garbled 0 (request_of (self garbled) "GET" "/users" None None)
    = Resp (mkResponse 200
              (DecodeRaises ContentTypeError "unexpected mimetype: text/html"))
  /\
  _request by_message "GET" "/users" None None true garbled =
    (Ret (200, JObj []),
     ended_at garbled (request_of (self garbled) "GET" "/users" None None) 0).
Proof.
  split; [reflexivity|].
  destruct (undecodable_body_is_empty_mapping by_message
              "GET" "/users" None None true garbled) as [_ H].
  apply (H 0%nat ContentTypeError "unexpected mimetype: text/html").
  - simpl. lia.
  - intros i Hi. lia.
  - reflexivity.
Defined.

(** The amended C6 at [forbidden]: the probe goes out, raises the auth error
    for 403, and the check answers [True]. *)
Lemma health_check_at_forbidden :
  1 <= max_retries (self forbidden) /\
  health_check by_message forbidden
    = (Ret true, snd (_request by_message "GET" "/admin" None None true
                        forbidden)) /\
  exists k evs,
    snd (health_check by_message forbidden)
      = advance (ensured forbidden) (S k) evs /\
    requests evs
      = repeat (mkRequest "GET" "https://panel.example/api/admin" None None
                  [("X-API-Key", "secret");
                   ("Content-Type", "application/json")]) (S k).
Proof.
  destruct (health_check_always_answers by_message forbidden)
    as ((b & Hb & Htrue & _) & Hsend & _).
  assert (b = true).
  { apply Htrue. right. do 3 eexists. split; [reflexivity|].
    right. reflexivity. }
  subst b. split; [simpl; lia|]. split; [exact Hb|].
  destruct Hsend as (k & evs & _ & Hsnd & Hreq); [simpl; lia|].
  exists k, evs. split; [exact Hsnd|exact Hreq].
Defined.

(** C6 as stated fails at [up_no_budget]: the panel is healthy, but with
    [max_retries = 0] no request goes out and the check answers [False]. *)
Lemma health_check_sends_nothing_without_budget :
  max_retries (self up_no_budget) = 0 /\
  (forall str_veloce,
     health_check str_veloce up_no_budget
     = (Ret false, ensured up_no_budget)) /\
  (forall str_veloce,
     requests (trace (world (snd (health_check str_veloce up_no_budget))))
     = []) /\
  (forall str_veloce,
     sent (world (snd (health_check str_veloce up_no_budget))) = O).
Proof.
  repeat split.
Qed.


(** C9 at [down]: the headers of the three requests. *)
Lemma headers_at_down :
  exists evs,
    trace (world (snd (_request by_message "GET" "/users" None None true down)))
      = trace (world down) ++ evs /\
    forall q, In q (requests evs) ->
      req_headers q = [ ("X-API-Key", "secret");
                        ("Content-Type", "application/json") ].
Proof.
  destruct (every_request_carries_the_headers by_message
              "GET" "/users" None None true down) as (evs & Htr & _ & Hh).
  exists evs. split; [exact Htr|exact Hh].
Defined.



(** * Instances of the further properties *)

(** X1 at a base URL given with two trailing slashes. *)
Lemma init_strips_at_double_slash :
  base_url (VeloceClient "https://panel.example/api//" "secret" 30 3)
    = "https://panel.example/api" /\
  "https://panel.example/api//"
    = String.append "https://panel.example/api" (slashes 2) /\
  forall p, "https://panel.example/api" <> String.append p "/".
Proof.
  destruct (init_strips_trailing_slashes
              "https://panel.example/api//" "secret" 30 3) as (_ & Hno & _).
  split; [reflexivity|]. split; [reflexivity|exact Hno].
Defined.

(** X2 at [down]: at most three attempts. *)
Lemma request_effects_at_down :
  1 <= budget (self down) true /\
  exists k evs,
    Z.of_nat (S k) <= 3 /\
    snd (_request by_message "GET" "/users" None None true down)
      = advance (ensured down) (S k) evs /\
    sleeps evs = map backoff (range (Z.of_nat k)).
Proof.
  split; [simpl; lia|].
  destruct (request_effects_within_budget by_message
              "GET" "/users" None None true down)
    as (k & evs & Hk & Hsnd & _ & Hsl & _).
  - simpl. lia.
  - exists k, evs. split; [exact Hk|]. split; [exact Hsnd|exact Hsl].
Defined.

(** X4 at [failing_link]: after a timeout and a reset connection the last
    attempt meets a 502, and the 502 is what is reported. *)
Lemma exhaustion_at_failing_link :
  1 <= budget (self failing_link) true /\
  fst (_request by_message "GET" "/users" None None true failing_link)
  = Raise (Veloce VeloceServerError (JStr "Server error") (Some 502)
                  (Some (JStr "Bad Gateway"))).
Proof.
  split; [simpl; lia|].
  rewrite (exhaustion_reports_the_last_failure by_message
             "GET" "/users" None None true failing_link).
  - reflexivity.
  - simpl. lia.
  - intros i Hi. simpl in Hi.
    destruct i as [|[|[|i]]]; [reflexivity|reflexivity|reflexivity|lia].
Defined.

(** X5 at [forbidden]: the error raised is the auth error of the 403. *)
Lemma request_raises_at_forbidden :
  fst (_request by_message "GET" "/users" None None true forbidden)
    = Raise (Veloce VeloceAuthError (JStr "Permission denied") (Some 403)
                    (Some (JObj [("detail", JStr "Not allowed")]))) /\
  isinstance (Veloce VeloceAuthError (JStr "Permission denied") (Some 403)
                     (Some (JObj [("detail", JStr "Not allowed")])))
             VeloceAPIError = true.
Proof.
  split; [reflexivity|].
  apply (request_raises_only_veloce_errors by_message
           "GET" "/users" None None true forbidden).
  reflexivity.
Defined.

(** X6 at [up]: the 200 that is returned is below 500. *)
Lemma request_returns_at_up :
  fst (_request by_message "GET" "/users" None None true up)
    = Ret (200, JObj []) /\
  200 < 500 /\ ~ In 200 [401; 403; 404; 409; 400; 422].
Proof.
  split; [reflexivity|].
  destruct (request_returns_an_unclassified_status by_message
              "GET" "/users" None None true up 200 (JObj []))
    as (Hlt & Hnot & _).
  - reflexivity.
  - split; assumption.
Defined.

(** X7 at [throttled]: a 429 counts as healthy. *)
Lemma health_check_at_throttled :
  status (mkResponse 429 (Decoded (JObj []))) < 500 /\
  fst (health_check by_message throttled) = Ret true.
Proof.
  split; [simpl; lia|].
  apply (health_check_below_500 by_message throttled 0
           (mkResponse 429 (Decoded (JObj [])))).
  - simpl. lia.
  - intros i Hi. lia.
  - reflexivity.
  - simpl. lia.
Defined.

(** X9 at [up]: a request, a close, a health check and a close again leave
    no session open. *)
Lemma no_session_is_leaked_at_up :
  tidy up /\
  open_sessions
    (trace (world (run_calls by_message
                     ([call_request "GET" "/users" None None true;
                       call_close; call_health_check] ++ [call_close])
                     up))) = [].
Proof.
  assert (Ht : tidy up).
  { split; [split; [reflexivity|discriminate]|reflexivity]. }
  split; [exact Ht|].
  apply (no_session_is_leaked by_message
           [call_request "GET" "/users" None None true;
            call_close; call_health_check] up Ht).
Defined.

(** X10 at [down]: three failing requests and a close leave the
    configuration as it was. *)
Lemma configuration_at_down :
  config (self (run_calls by_message
                  [call_request "GET" "/users" None None true; call_close]
                  down))
  = ("https://panel.example/api", "secret", 30, 3).
Proof.
  destruct (configuration_is_immutable by_message
              [call_request "GET" "/users" None None true; call_close] down)
    as [Hcfg _].
  rewrite Hcfg. reflexivity.
Defined.


(** X12 at [up]: the call that succeeds at once succeeds alike with
    [max_retries = 10]. *)
Lemma settled_call_at_up :
  transient (answer up 0 (request_of (self up) "GET" "/users" None None))
    = false /\
  fst (_request by_message "GET" "/users" None None true
         (with_max_retries up 10))
  = fst (_request by_message "GET" "/users" None None true up).
Proof.
  split; [reflexivity|].
  apply (settled_call_ignores_the_rest_of_the_budget by_message
           "GET" "/users" None None true true 10 up 0).
  - simpl. lia.
  - simpl. lia.
  - intros i Hi. lia.
  - reflexivity.
Defined.

(** X13 at [down]: the request fails with the server error, and the session
    it opened has been closed. *)
Lemma scope_at_down :
  tidy down /\
  fst (async_with (_request by_message "GET" "/users" None None true) down)
  = Raise (Veloce VeloceServerError (JStr "Server error") (Some 503)
                  (Some (JObj []))) /\
  _session (self (snd (async_with
                         (_request by_message "GET" "/users" None None true)
                         down))) = None.
Proof.
  assert (Ht : tidy down).
  { split; [split; [reflexivity|discriminate]|reflexivity]. }
  split; [exact Ht|].
  destruct (scope_closes_the_session_on_every_exit by_message
              "GET" "/users" None None true down Ht)
    as (Hfst & Hnone & _).
  split; [rewrite Hfst; reflexivity|exact Hnone].
Defined.
